(** * superset-resize: the embed orchestration pipeline and its variants

    A shallow embedding of the Angular components of the repository that
    embed a Superset dashboard and keep the inserted iframe sized to its
    container:

    - [RxjsDashboardComponent] and the RxJS [DashboardComponent]
      (one [startPipeline] with [switchMap]/[debounceTime]/
      [distinctUntilChanged]/[takeUntil]),
    - [LifecycleDashboardComponent] and the signals [DashboardComponent]
      ([afterNextRender] + [afterRenderEffect] + [DestroyRef]),
    - [CssDashboardComponent] and [AfterNextRenderDashboardComponent]
      (no resize step).

    Asynchrony is modelled by events: every callback the browser, the HTTP
    client, the embedding SDK or the framework delivers to a component is one
    [Event], and a component is a handler [Event -> World -> World].  Time is
    explicit ([Elapse ms]); sizes are whole CSS pixels.

    What the libraries do is taken from their documentation: an unsubscribed
    [HttpClient] request delivers nothing, a promise wrapped by [from] cannot
    be cancelled but its result is dropped once unsubscribed, [next] and
    [complete] on a completed [Subject] do nothing, [debounceTime] emits the
    last value once its time has passed without a new one, a signal holding a
    fresh object notifies on every [set], and the render hooks of a component
    are removed when its [DestroyRef] fires. *)

From Stdlib Require Import NArith DecimalString.
From stdpp Require Import base list strings.

Open Scope string_scope.
Open Scope list_scope.
Open Scope N_scope.

(** Sequencing of statements: [w |> f |> g] runs [f], then [g]. *)
Notation "w |> f" := (f w) (at level 45, left associativity, only parsing).

(** ** Data shared by all components *)

(** The literal union of [currentStep]. *)
Inductive Step := idle | token | embed | resize | done.

#[global] Instance Step_eq_dec : EqDecision Step.
Proof. solve_decision. Defined.

(** [ResizeObserverEntry.contentRect], restricted to the two fields read. *)
Record Rect := { width : N; height : N }.

#[global] Instance Rect_eq_dec : EqDecision Rect.
Proof. solve_decision. Defined.

(** A DOM element: its tag and the two inline style properties written. *)
Record Element := { tagName : string; styleWidth : string; styleHeight : string }.

(** The template literal [`${n}px`]. *)
Definition px (n : N) : string := NilEmpty.string_of_uint (N.to_uint n) +:+ "px".

(** The four signals a template reads. *)
Record Signals := {
  isLoading : bool;
  hasError : bool;
  errorMessage : string;
  currentStep : Step
}.

(** Element handles are indices into [heap]; [mount] lists the children of
    [dashboardContainer.nativeElement].  A handle stays valid when the
    element is detached from the mount. *)
Record Document := { heap : list Element; mount : list nat }.

(** What the component did to its collaborators: URLs requested from the
    BFF, [embedDashboard] calls (by [id]), whether such a call is still
    running inside the SDK, and the width/height writes by handle. *)
Record Io := {
  requests : list string;
  embeds : list string;
  embedInFlight : bool;
  writes : list (nat * Rect)
}.

Record World (P : Type) := {
  signals : Signals;
  document : Document;
  io : Io;
  self : P
}.
Arguments signals {P} _.
Arguments document {P} _.
Arguments io {P} _.
Arguments self {P} _.
Arguments Build_World {P} _ _ _ _.

(** What the endpoint answers, as [HttpClient.get] reports it: an error
    notification (network error, non-2xx status, body that does not parse),
    or a parsed object whose [token] property may be missing. *)
Inductive HttpResult :=
| HttpFailure (cause : string)
| HttpBody (tokenField : option string).

Inductive Event :=
| NgOnInit
| NgAfterViewInit
| Render
| TokenResponse (r : HttpResult)
| EmbedResolved (inserted : list Element)
| EmbedRejected (cause : string)
| SdkReplace (fresh : Element)
| ResizeNotify (entries : list Rect)
| Elapse (ms : N)
| Destroy.

(** Activation: the two initialisation hooks, which Angular calls once each,
    and the first render. *)
Definition activate : list Event := [NgOnInit; NgAfterViewInit; Render].

(** The events that occur only within [activate]; renders recur. *)
Definition init_hook (e : Event) : bool :=
  match e with NgOnInit | NgAfterViewInit => true | _ => false end.

Section Primitives.
Context {P : Type}.
Implicit Types w : World P.

Definition set_isLoading (b : bool) w : World P :=
  let s := signals w in
  Build_World {| isLoading := b; hasError := hasError s;
                 errorMessage := errorMessage s; currentStep := currentStep s |}
              (document w) (io w) (self w).

Definition set_hasError (b : bool) w : World P :=
  let s := signals w in
  Build_World {| isLoading := isLoading s; hasError := b;
                 errorMessage := errorMessage s; currentStep := currentStep s |}
              (document w) (io w) (self w).

Definition set_errorMessage (m : string) w : World P :=
  let s := signals w in
  Build_World {| isLoading := isLoading s; hasError := hasError s;
                 errorMessage := m; currentStep := currentStep s |}
              (document w) (io w) (self w).

Definition set_currentStep (v : Step) w : World P :=
  let s := signals w in
  Build_World {| isLoading := isLoading s; hasError := hasError s;
                 errorMessage := errorMessage s; currentStep := v |}
              (document w) (io w) (self w).

Definition set_self (p : P) w : World P :=
  Build_World (signals w) (document w) (io w) p.

Definition http_get (url : string) w : World P :=
  let o := io w in
  Build_World (signals w) (document w)
    {| requests := requests o ++ [url]; embeds := embeds o;
       embedInFlight := embedInFlight o; writes := writes o |} (self w).

(** [embedDashboard({ id, ... })]: the call is recorded and runs inside the
    SDK until it resolves or rejects. *)
Definition embedDashboard (id : string) w : World P :=
  let o := io w in
  Build_World (signals w) (document w)
    {| requests := requests o; embeds := embeds o ++ [id];
       embedInFlight := true; writes := writes o |} (self w).

Definition embed_settled w : World P :=
  let o := io w in
  Build_World (signals w) (document w)
    {| requests := requests o; embeds := embeds o;
       embedInFlight := false; writes := writes o |} (self w).

Definition resized (r : Rect) (e : Element) : Element :=
  {| tagName := tagName e; styleWidth := px (width r); styleHeight := px (height r) |}.

(** [el.style.width = `${width}px`; el.style.height = `${height}px`]. *)
Definition write_size (i : nat) (r : Rect) w : World P :=
  let d := document w in
  let o := io w in
  Build_World (signals w)
    {| heap := match heap d !! i with
               | Some e => <[i := resized r e]> (heap d)
               | None => heap d
               end;
       mount := mount d |}
    {| requests := requests o; embeds := embeds o;
       embedInFlight := embedInFlight o; writes := writes o ++ [(i, r)] |}
    (self w).

(** [mountPoint.innerHTML = '']. *)
Definition clear_mount w : World P :=
  Build_World (signals w) {| heap := heap (document w); mount := [] |} (io w) (self w).

(** The SDK appends the elements it created to the mount target. *)
Definition sdk_insert (els : list Element) w : World P :=
  let d := document w in
  Build_World (signals w)
    {| heap := heap d ++ els;
       mount := mount d ++ seq (length (heap d)) (length els) |}
    (io w) (self w).

(** The SDK swaps the content of the mount target for a fresh element. *)
Definition sdk_replace (el : Element) w : World P :=
  let d := document w in
  Build_World (signals w)
    {| heap := heap d ++ [el]; mount := [length (heap d)] |}
    (io w) (self w).

Definition is_iframe (d : Document) (i : nat) : bool :=
  match heap d !! i with
  | Some e => bool_decide (tagName e = "iframe")
  | None => false
  end.

(** [mountPoint.querySelector('iframe')]: the first match, or [null]. *)
Definition querySelector_iframe w : option nat :=
  List.find (is_iframe (document w)) (mount (document w)).

End Primitives.

(** ** SupersetService *)
Module SupersetService.

Definition bffUrl : string := "http://localhost:3000".

(** The URL of [getGuestToken(dashboardId)]. *)
Definition url (dashboardId : string) : string :=
  bffUrl +:+ "/superset/guest-token/" +:+ dashboardId.

(** What the observable returned by [getGuestToken] delivers:
    [map((response) => response.token)] over the HTTP result. *)
Definition getGuestToken (r : HttpResult) : string + option string :=
  match r with
  | HttpFailure cause => inl cause
  | HttpBody tokenField => inr tokenField
  end.

End SupersetService.

Arguments SupersetService.url : simpl never.
Arguments px : simpl never.

(** The two user-facing messages. *)
Definition missingIdMessage : string := "dashboardId が指定されていません。".
Definition loadFailedMessage : string :=
  "ダッシュボードの読み込みに失敗しました。Superset と BFF が起動しているか確認してください。".

Arguments missingIdMessage : simpl never.
Arguments loadFailedMessage : simpl never.

(** JavaScript's [!this.dashboardId] for a string input that may be unbound. *)
Definition falsy (id : option string) : bool :=
  match id with
  | None => true
  | Some s => bool_decide (s = "")
  end.

Arguments falsy : simpl never.


(** ** The RxJS pipeline: [RxjsDashboardComponent] and the RxJS [DashboardComponent] *)
Module Rx.

(** The context handed from operator to operator.  [mountPoint] is the one
    mount target of the world and is not repeated here. *)
Record EmbedContext := {
  ctx_dashboardId : string;
  ctx_guestToken : option string;
  ctx_iframe : option nat
}.

(** [debounceTime(100)]. *)
Definition dueTime : N := 100.

(** Where the subscription made by [startPipeline] is parked.
    [Observing ctx pending last]: the [ResizeObserver] of
    [fromResizeObserver] is connected; [pending] is the value held by
    [debounceTime] with the time left on its timer; [last] is the value
    remembered by [distinctUntilChanged]. *)
Inductive Stage :=
| Unsubscribed
| AwaitToken (dashboardId : string)
| AwaitEmbed (ctx : EmbedContext)
| Observing (ctx : EmbedContext) (pending : option (Rect * N)) (last : option Rect)
| Closed.

(** [destroyStopped]: [destroy$] has completed. *)
Record State := {
  dashboardId : option string;
  stage : Stage;
  destroyStopped : bool
}.

Definition W := World State.

Definition set_stage (st : Stage) (w : W) : W :=
  w |> set_self {| dashboardId := dashboardId (self w); stage := st;
                   destroyStopped := destroyStopped (self w) |}.

(** [catchError]: the handler runs and [EMPTY] completes the subscription. *)
Definition catchError (w : W) : W :=
  w |> set_isLoading false |> set_hasError true
    |> set_errorMessage loadFailedMessage |> set_stage Closed.

(** [startPipeline] up to the first suspension: [of(...)] emits at once,
    the first [tap] runs and the first [switchMap] subscribes to the
    HTTP request. *)
Definition startPipeline (id : string) (w : W) : W :=
  w |> set_currentStep token |> set_isLoading true |> set_hasError false
    |> http_get (SupersetService.url id)
    |> set_stage (AwaitToken id).

(** The token observable delivers: [map] builds the context, [tap] sets
    ['embed'], the second [switchMap] calls [embedDashboard]. *)
Definition onToken (r : HttpResult) (w : W) : W :=
  match stage (self w) with
  | AwaitToken id =>
      match SupersetService.getGuestToken r with
      | inl _ => catchError w
      | inr guestToken =>
          let ctx := {| ctx_dashboardId := id; ctx_guestToken := guestToken;
                        ctx_iframe := None |} in
          w |> set_currentStep embed
            |> embedDashboard (ctx_dashboardId ctx)
            |> set_stage (AwaitEmbed ctx)
      end
  | _ => w
  end.

(** The promise of [embedDashboard] resolves: [map] queries the iframe,
    [tap] sets ['resize'], the third [switchMap] connects the observer. *)
Definition onEmbedResolved (w : W) : W :=
  match stage (self w) with
  | AwaitEmbed ctx =>
      let ctx' := {| ctx_dashboardId := ctx_dashboardId ctx;
                     ctx_guestToken := ctx_guestToken ctx;
                     ctx_iframe := querySelector_iframe w |} in
      w |> set_isLoading false |> set_currentStep resize
        |> set_stage (Observing ctx' None None)
  | _ => w
  end.

Definition onEmbedRejected (w : W) : W :=
  match stage (self w) with
  | AwaitEmbed _ => catchError w
  | _ => w
  end.

(** [entries.forEach((entry) => subscriber.next(entry))] into
    [debounceTime]: each value replaces the held one and restarts the timer. *)
Definition debounce_next (pending : option (Rect * N)) (entry : Rect) : option (Rect * N) :=
  Some (entry, dueTime).

Definition onResize (entries : list Rect) (w : W) : W :=
  match stage (self w) with
  | Observing ctx pending last =>
      w |> set_stage (Observing ctx (fold_left debounce_next entries pending) last)
  | _ => w
  end.

(** The comparator of [distinctUntilChanged]. *)
Definition same_size (a b : Rect) : bool :=
  (width a =? width b) && (height a =? height b).

(** The final [tap] of step 4. *)
Definition apply_size (ctx : EmbedContext) (r : Rect) (w : W) : W :=
  (match ctx_iframe ctx with
   | Some i => write_size i r w
   | None => w
   end) |> set_currentStep done.

(** The debounce timer fires with [r]. *)
Definition emit (ctx : EmbedContext) (last : option Rect) (r : Rect) (w : W) : W :=
  match last with
  | Some prev =>
      if same_size prev r
      then w |> set_stage (Observing ctx None last)
      else w |> apply_size ctx r |> set_stage (Observing ctx None (Some r))
  | None => w |> apply_size ctx r |> set_stage (Observing ctx None (Some r))
  end.

Definition onElapse (ms : N) (w : W) : W :=
  match stage (self w) with
  | Observing ctx (Some (r, remaining)) last =>
      if remaining <=? ms
      then emit ctx last r w
      else w |> set_stage (Observing ctx (Some (r, remaining - ms)) last)
  | _ => w
  end.

(** [destroy$.next(); destroy$.complete()]: [takeUntil] unsubscribes the
    whole chain (the teardown of [fromResizeObserver] disconnects the
    observer); on a completed subject both calls do nothing. *)
Definition destroy_signal (w : W) : W :=
  if destroyStopped (self w) then w
  else
    w |> set_self {| dashboardId := dashboardId (self w);
                     stage := match stage (self w) with
                              | Unsubscribed => Unsubscribed
                              | _ => Closed
                              end;
                     destroyStopped := true |}.

Definition ngOnDestroy (w : W) : W :=
  w |> destroy_signal |> clear_mount.

(** The SDK side of a settled [embedDashboard] call, which runs whether or
    not the component still listens. *)
Definition sdk_resolves (els : list Element) (w : W) : W :=
  w |> sdk_insert els |> embed_settled.

Definition handle (ngAfterViewInit : W -> W) (e : Event) (w : W) : W :=
  match e with
  | NgOnInit => w
  | NgAfterViewInit => ngAfterViewInit w
  | Render => w
  | TokenResponse r => onToken r w
  | EmbedResolved els =>
      if embedInFlight (io w) then w |> sdk_resolves els |> onEmbedResolved else w
  | EmbedRejected _ =>
      if embedInFlight (io w) then w |> embed_settled |> onEmbedRejected else w
  | SdkReplace el => sdk_replace el w
  | ResizeNotify entries => onResize entries w
  | Elapse ms => onElapse ms w
  | Destroy => ngOnDestroy w
  end.

Definition observerConnected (w : W) : bool :=
  match stage (self w) with
  | Observing _ _ _ => true
  | _ => false
  end.

Definition initial (id : option string) : State :=
  {| dashboardId := id; stage := Unsubscribed; destroyStopped := false |}.

End Rx.

(** [pages/rxjs-dashboard]: the identifier is a constant of the class. *)
Module RxjsDashboardComponent.

Definition dashboardId : string := "abbb00fa-f7c9-4162-9c88-4a1ab1af1998".

Definition ngAfterViewInit (w : Rx.W) : Rx.W :=
  Rx.startPipeline dashboardId w.

Definition handle : Event -> Rx.W -> Rx.W := Rx.handle ngAfterViewInit.

Definition initial : Rx.State := Rx.initial (Some dashboardId).

End RxjsDashboardComponent.

(** [components/dashboard], RxJS version: the identifier is an [@Input]. *)
Module DashboardComponentRx.

Definition ngAfterViewInit (w : Rx.W) : Rx.W :=
  if falsy (Rx.dashboardId (self w))
  then w |> set_hasError true |> set_errorMessage missingIdMessage
         |> set_isLoading false
  else Rx.startPipeline (default "" (Rx.dashboardId (self w))) w.

Definition handle : Event -> Rx.W -> Rx.W := Rx.handle ngAfterViewInit.

Definition initial (id : option string) : Rx.State := Rx.initial id.

End DashboardComponentRx.

(** ** The signals version: [LifecycleDashboardComponent] and the signals
    [DashboardComponent] *)
Module Sig.

(** Where the [async initDashboard()] call is parked. *)
Inductive Async := NotStarted | AwaitToken (id : string) | AwaitEmbed | Returned.

(** [renderPending]: the [afterNextRender] callback has not run yet.
    [effectDirty]: [afterRenderEffect] has to run at the next render (it
    runs once initially, then whenever [iframeSize] was set: the signal
    holds a fresh object each time, so every [set] notifies).
    [resizeObserver]: the field is non-null, i.e. an observer is connected.
    [destroyed]: the [DestroyRef] has fired, which also removes the two
    render hooks. *)
Record State := {
  dashboardId : option string;
  iframeSize : option Rect;
  effectDirty : bool;
  iframeEl : option nat;
  resizeObserver : bool;
  async : Async;
  renderPending : bool;
  destroyed : bool
}.

Definition W := World State.

Definition set_async (a : Async) (w : W) : W :=
  let p := self w in
  w |> set_self {| dashboardId := dashboardId p; iframeSize := iframeSize p;
                   effectDirty := effectDirty p; iframeEl := iframeEl p;
                   resizeObserver := resizeObserver p; async := a;
                   renderPending := renderPending p; destroyed := destroyed p |}.

Definition set_iframeSize (r : Rect) (w : W) : W :=
  let p := self w in
  w |> set_self {| dashboardId := dashboardId p; iframeSize := Some r;
                   effectDirty := true; iframeEl := iframeEl p;
                   resizeObserver := resizeObserver p; async := async p;
                   renderPending := renderPending p; destroyed := destroyed p |}.

Definition set_effectDirty (b : bool) (w : W) : W :=
  let p := self w in
  w |> set_self {| dashboardId := dashboardId p; iframeSize := iframeSize p;
                   effectDirty := b; iframeEl := iframeEl p;
                   resizeObserver := resizeObserver p; async := async p;
                   renderPending := renderPending p; destroyed := destroyed p |}.

Definition set_iframeEl (i : option nat) (w : W) : W :=
  let p := self w in
  w |> set_self {| dashboardId := dashboardId p; iframeSize := iframeSize p;
                   effectDirty := effectDirty p; iframeEl := i;
                   resizeObserver := resizeObserver p; async := async p;
                   renderPending := renderPending p; destroyed := destroyed p |}.

Definition set_resizeObserver (b : bool) (w : W) : W :=
  let p := self w in
  w |> set_self {| dashboardId := dashboardId p; iframeSize := iframeSize p;
                   effectDirty := effectDirty p; iframeEl := iframeEl p;
                   resizeObserver := b; async := async p;
                   renderPending := renderPending p; destroyed := destroyed p |}.

Definition set_renderPending (b : bool) (w : W) : W :=
  let p := self w in
  w |> set_self {| dashboardId := dashboardId p; iframeSize := iframeSize p;
                   effectDirty := effectDirty p; iframeEl := iframeEl p;
                   resizeObserver := resizeObserver p; async := async p;
                   renderPending := b; destroyed := destroyed p |}.

Definition set_destroyed (w : W) : W :=
  let p := self w in
  w |> set_self {| dashboardId := dashboardId p; iframeSize := iframeSize p;
                   effectDirty := effectDirty p; iframeEl := iframeEl p;
                   resizeObserver := resizeObserver p; async := async p;
                   renderPending := renderPending p; destroyed := true |}.

(** The [catch] block of [initDashboard]. *)
Definition catch_block (w : W) : W :=
  w |> set_isLoading false |> set_hasError true
    |> set_errorMessage loadFailedMessage |> set_async Returned.

(** [initDashboard] from the [try] to the first [await]. *)
Definition try_start (id : string) (w : W) : W :=
  w |> set_currentStep token |> http_get (SupersetService.url id)
    |> set_async (AwaitToken id).

(** From the first [await] to the second.  [logsToken]: the lifecycle page
    evaluates [guestToken.slice(0, 20)], which throws on [undefined]. *)
Definition afterToken (logsToken : bool) (r : HttpResult) (w : W) : W :=
  match async (self w) with
  | AwaitToken id =>
      match SupersetService.getGuestToken r with
      | inl _ => catch_block w
      | inr guestToken =>
          if logsToken && bool_decide (guestToken = None)
          then catch_block w
          else w |> set_currentStep embed |> embedDashboard id
                 |> set_async AwaitEmbed
      end
  | _ => w
  end.

(** From the second [await] to the end of the [try]. *)
Definition afterEmbed (w : W) : W :=
  match async (self w) with
  | AwaitEmbed =>
      w |> set_iframeEl (querySelector_iframe w)
        |> set_isLoading false |> set_currentStep resize
        |> set_resizeObserver true |> set_async Returned
  | _ => w
  end.

Definition embedThrows (w : W) : W :=
  match async (self w) with
  | AwaitEmbed => catch_block w
  | _ => w
  end.

(** The callback given to [new ResizeObserver]. *)
Definition onResize (entries : list Rect) (w : W) : W :=
  if resizeObserver (self w)
  then match entries with
       | rect :: _ => set_iframeSize {| width := width rect; height := height rect |} w
       | [] => w
       end
  else w.

(** The body of [afterRenderEffect]. *)
Definition effect (w : W) : W :=
  match iframeEl (self w), iframeSize (self w) with
  | Some el, Some size => w |> write_size el size |> set_currentStep done
  | _, _ => w
  end.

(** The hook registered with [afterNextRender]: it runs at one render only. *)
Definition afterNextRender_hook (initDashboard : W -> W) (w : W) : W :=
if renderPending (self w)
then w |> set_renderPending false |> initDashboard
else w.

(** The hook registered with [afterRenderEffect]: it runs when dirty. *)
Definition afterRenderEffect_hook (w : W) : W :=
if effectDirty (self w)
then w |> effect |> set_effectDirty false
else w.

(** One render: the hooks in the order of their registration, unless the
    component was destroyed. *)
Definition render (initDashboard : W -> W) (w : W) : W :=
if destroyed (self w) then w
else w |> afterNextRender_hook initDashboard |> afterRenderEffect_hook.

(** The callback registered with [destroyRef.onDestroy]. *)
Definition onDestroy (w : W) : W :=
  w |> set_resizeObserver false |> clear_mount |> set_destroyed.

Definition sdk_resolves (els : list Element) (w : W) : W :=
  w |> sdk_insert els |> embed_settled.

Definition handle (initDashboard : W -> W) (logsToken : bool) (e : Event) (w : W) : W :=
  match e with
  | NgOnInit => w
  | NgAfterViewInit => w
  | Render => render initDashboard w
  | TokenResponse r => afterToken logsToken r w
  | EmbedResolved els =>
      if embedInFlight (io w) then w |> sdk_resolves els |> afterEmbed else w
  | EmbedRejected _ =>
      if embedInFlight (io w) then w |> embed_settled |> embedThrows else w
  | SdkReplace el => sdk_replace el w
  | ResizeNotify entries => onResize entries w
  | Elapse _ => w
  | Destroy => onDestroy w
  end.

Definition observerConnected (w : W) : bool := resizeObserver (self w).

Definition initial (id : option string) : State :=
  {| dashboardId := id; iframeSize := None; effectDirty := true;
     iframeEl := None; resizeObserver := false; async := NotStarted;
     renderPending := true; destroyed := false |}.

End Sig.

(** [pages/lifecycle-dashboard]. *)
Module LifecycleDashboardComponent.

Definition dashboardId : string := "974e943f-f298-4c77-b56f-5bb1bd71ce42".

Definition initDashboard (w : Sig.W) : Sig.W := Sig.try_start dashboardId w.

Definition handle : Event -> Sig.W -> Sig.W := Sig.handle initDashboard true.

Definition initial : Sig.State := Sig.initial (Some dashboardId).

End LifecycleDashboardComponent.

(** [components/dashboard], signals version. *)
Module DashboardComponentSignals.

Definition initDashboard (w : Sig.W) : Sig.W :=
  if falsy (Sig.dashboardId (self w))
  then w |> set_hasError true |> set_errorMessage missingIdMessage
         |> set_isLoading false |> Sig.set_async Sig.Returned
  else Sig.try_start (default "" (Sig.dashboardId (self w))) w.

Definition handle : Event -> Sig.W -> Sig.W := Sig.handle initDashboard false.

Definition initial (id : option string) : Sig.State := Sig.initial id.

End DashboardComponentSignals.

(** ** [CssDashboardComponent]: token, embed, no resize step, no [takeUntil] *)
Module Css.

Inductive Stage := Unsubscribed | AwaitToken (id : string) | AwaitEmbed | Completed.

Record State := { stage : Stage }.

Definition W := World State.

Definition dashboardId : string := "974e943f-f298-4c77-b56f-5bb1bd71ce42".

Definition set_stage (st : Stage) (w : W) : W := w |> set_self {| stage := st |}.

Definition catchError (w : W) : W :=
  w |> set_isLoading false |> set_hasError true
    |> set_errorMessage loadFailedMessage |> set_stage Completed.

Definition ngAfterViewInit (w : W) : W :=
  w |> set_currentStep token |> set_isLoading true |> set_hasError false
    |> http_get (SupersetService.url dashboardId)
    |> set_stage (AwaitToken dashboardId).

Definition onToken (r : HttpResult) (w : W) : W :=
  match stage (self w) with
  | AwaitToken id =>
      match SupersetService.getGuestToken r with
      | inl _ => catchError w
      | inr _ => w |> set_currentStep embed |> embedDashboard id
                   |> set_stage AwaitEmbed
      end
  | _ => w
  end.

Definition onEmbedResolved (w : W) : W :=
  match stage (self w) with
  | AwaitEmbed => w |> set_isLoading false |> set_currentStep done
                    |> set_stage Completed
  | _ => w
  end.

Definition onEmbedRejected (w : W) : W :=
  match stage (self w) with
  | AwaitEmbed => catchError w
  | _ => w
  end.

Definition ngOnDestroy (w : W) : W := clear_mount w.

Definition handle (e : Event) (w : W) : W :=
  match e with
  | NgOnInit => w
  | NgAfterViewInit => ngAfterViewInit w
  | Render => w
  | TokenResponse r => onToken r w
  | EmbedResolved els =>
      if embedInFlight (io w)
      then w |> sdk_insert els |> embed_settled |> onEmbedResolved else w
  | EmbedRejected _ =>
      if embedInFlight (io w) then w |> embed_settled |> onEmbedRejected else w
  | SdkReplace el => sdk_replace el w
  | ResizeNotify _ => w
  | Elapse _ => w
  | Destroy => ngOnDestroy w
  end.

Definition initial : State := {| stage := Unsubscribed |}.

End Css.

(** ** [AfterNextRenderDashboardComponent]: the token is fetched in
    [ngOnInit] and handed over through the subject [guestToken$] *)
Module Anr.

(** The subscription made inside [afterNextRender]. *)
Inductive Pipe := NotSubscribed | Listening | Embedding | PipeClosed.

(** [tokenSub]: the subscription of [ngOnInit] is open. *)
Record State := { tokenSub : bool; pipe : Pipe; destroyStopped : bool }.

Definition W := World State.

Definition dashboardId : string := "974e943f-f298-4c77-b56f-5bb1bd71ce42".

Definition set_tokenSub (b : bool) (w : W) : W :=
  w |> set_self {| tokenSub := b; pipe := pipe (self w);
                   destroyStopped := destroyStopped (self w) |}.

Definition set_pipe (p : Pipe) (w : W) : W :=
  w |> set_self {| tokenSub := tokenSub (self w); pipe := p;
                   destroyStopped := destroyStopped (self w) |}.

Definition ngOnInit (w : W) : W :=
  w |> set_currentStep token |> set_isLoading true |> set_hasError false
    |> http_get (SupersetService.url dashboardId)
    |> set_tokenSub true.

(** The [afterNextRender] callback: subscribe to [guestToken$]. *)
Definition render (w : W) : W :=
  match pipe (self w) with
  | NotSubscribed => if destroyStopped (self w) then w else set_pipe Listening w
  | _ => w
  end.

(** [guestToken$.next(token)]: a subject delivers to current subscribers
    only. *)
Definition guestToken_next (w : W) : W :=
  match pipe (self w) with
  | Listening | Embedding =>
      w |> set_currentStep embed |> embedDashboard dashboardId |> set_pipe Embedding
  | _ => w
  end.

Definition onToken (r : HttpResult) (w : W) : W :=
  if tokenSub (self w)
  then match SupersetService.getGuestToken r with
       | inl _ => w |> set_tokenSub false |> set_isLoading false
                    |> set_hasError true |> set_errorMessage loadFailedMessage
       | inr _ => w |> set_tokenSub false |> guestToken_next
       end
  else w.

Definition onEmbedResolved (w : W) : W :=
  match pipe (self w) with
  | Embedding => w |> set_isLoading false |> set_currentStep done
                   |> set_pipe Listening
  | _ => w
  end.

Definition onEmbedRejected (w : W) : W :=
  match pipe (self w) with
  | Embedding => w |> set_isLoading false |> set_hasError true
                   |> set_errorMessage loadFailedMessage |> set_pipe PipeClosed
  | _ => w
  end.

Definition ngOnDestroy (w : W) : W :=
  (if destroyStopped (self w) then w
   else w |> set_self {| tokenSub := false;
                         pipe := match pipe (self w) with
                                 | NotSubscribed => NotSubscribed
                                 | _ => PipeClosed
                                 end;
                         destroyStopped := true |})
  |> clear_mount.

Definition handle (e : Event) (w : W) : W :=
  match e with
  | NgOnInit => ngOnInit w
  | NgAfterViewInit => w
  | Render => render w
  | TokenResponse r => onToken r w
  | EmbedResolved els =>
      if embedInFlight (io w)
      then w |> sdk_insert els |> embed_settled |> onEmbedResolved else w
  | EmbedRejected _ =>
      if embedInFlight (io w) then w |> embed_settled |> onEmbedRejected else w
  | SdkReplace el => sdk_replace el w
  | ResizeNotify _ => w
  | Elapse _ => w
  | Destroy => ngOnDestroy w
  end.

Definition initial : State :=
  {| tokenSub := false; pipe := NotSubscribed; destroyStopped := false |}.

End Anr.

(** ** The components as interchangeable implementations *)

Record Implementation := {
  priv : Type;
  initial : priv;
  handle : Event -> World priv -> World priv;
  observerConnected : World priv -> bool
}.

(** The two RxJS components differ in [ngAfterViewInit] and in where the
    identifier comes from; the two signals components in [initDashboard]. *)
Definition Rx_component (ngAfterViewInit : Rx.W -> Rx.W) (init : Rx.State)
    : Implementation :=
  {| priv := Rx.State; initial := init;
     handle := Rx.handle ngAfterViewInit;
     observerConnected := Rx.observerConnected |}.

Definition Sig_component (initDashboard : Sig.W -> Sig.W) (logsToken : bool)
    (init : Sig.State) : Implementation :=
  {| priv := Sig.State; initial := init;
     handle := Sig.handle initDashboard logsToken;
     observerConnected := Sig.observerConnected |}.

Definition RxjsPage : Implementation :=
  Rx_component RxjsDashboardComponent.ngAfterViewInit RxjsDashboardComponent.initial.

Definition DashboardRx (id : option string) : Implementation :=
  Rx_component DashboardComponentRx.ngAfterViewInit (DashboardComponentRx.initial id).

Definition LifecyclePage : Implementation :=
  Sig_component LifecycleDashboardComponent.initDashboard true
                LifecycleDashboardComponent.initial.

Definition DashboardSignals (id : option string) : Implementation :=
  Sig_component DashboardComponentSignals.initDashboard false
                (DashboardComponentSignals.initial id).

Definition CssPage : Implementation :=
  {| priv := Css.State; initial := Css.initial; handle := Css.handle;
     observerConnected := fun _ => false |}.

Definition AfterNextRenderPage : Implementation :=
  {| priv := Anr.State; initial := Anr.initial; handle := Anr.handle;
     observerConnected := fun _ => false |}.

(** All of them; [id] is what the parent binds to the [@Input] of the two
    [DashboardComponent]s (the pages carry their identifier themselves). *)
Definition implementations (id : option string) : list Implementation :=
  [RxjsPage; DashboardRx id; LifecyclePage; DashboardSignals id;
   CssPage; AfterNextRenderPage].

(** The world a component is constructed in: the signals at their initial
    values, an empty mount target, nothing requested yet. *)
Definition boot (impl : Implementation) : World (priv impl) :=
  {| signals := {| isLoading := true; hasError := false;
                   errorMessage := ""; currentStep := idle |};
     document := {| heap := []; mount := [] |};
     io := {| requests := []; embeds := []; embedInFlight := false; writes := [] |};
     self := initial impl |}.

Definition run (impl : Implementation) (evs : list Event)
    (w : World (priv impl)) : World (priv impl) :=
  fold_left (fun w e => handle impl e w) evs w.

(** The lifecycle state of the presentation boundary.  The components keep
    the error state apart from [currentStep], in [hasError]. *)
Inductive LifecycleState := at_step (s : Step) | error.

#[global] Instance LifecycleState_eq_dec : EqDecision LifecycleState.
Proof. solve_decision. Defined.

Definition lifecycle {P} (w : World P) : LifecycleState :=
  if hasError (signals w) then error else at_step (currentStep (signals w)).

(** The states the lifecycle value changes to, event after event. *)
Fixpoint transitions (impl : Implementation) (evs : list Event)
    (w : World (priv impl)) : list LifecycleState :=
  match evs with
  | [] => []
  | e :: evs' =>
      let w' := handle impl e w in
      (if decide (lifecycle w' = lifecycle w) then [] else [lifecycle w'])
        ++ transitions impl evs' w'
  end.

(** The writes an event list adds to the log of [w]. *)
Definition new_writes (impl : Implementation) (evs : list Event)
    (w : World (priv impl)) : list (nat * Rect) :=
  drop (length (writes (io w))) (writes (io (run impl evs w))).

(** The size-change notifications an event list delivers. *)
Fixpoint notifications (evs : list Event) : nat :=
  match evs with
  | [] => 0
  | ResizeNotify entries :: evs' => length entries + notifications evs'
  | _ :: evs' => notifications evs'
  end.

Definition iframeElement : Element :=
  {| tagName := "iframe"; styleWidth := ""; styleHeight := "" |}.

Definition rect (w h : N) : Rect := {| width := w; height := h |}.

(** The three logs of [Io]; [embedInFlight] is bookkeeping of the SDK. *)
Definition logs {P} (w : World P) : list string * list string * list (nat * Rect) :=
  (requests (io w), embeds (io w), writes (io w)).

(** The invariant of the presentation signals. *)
Definition signals_consistent (s : Signals) : Prop :=
  hasError s = true -> isLoading s = false /\ errorMessage s <> "".

(** ** Vocabulary of the properties *)


(** A component is parked when nothing it waits for can arrive any more:
    the pipeline has no open subscription, [initDashboard] has returned
    without an iframe, the subject has no embed call running. *)
Definition Rx_parked (w : Rx.W) : Prop :=
  Rx.stage (self w) = Rx.Unsubscribed \/ Rx.stage (self w) = Rx.Closed.


Definition Sig_parked (w : Sig.W) : Prop :=
  Sig.async (self w) = Sig.Returned /\ Sig.iframeEl (self w) = None /\
  Sig.renderPending (self w) = false.

Definition Css_parked (w : Css.W) : Prop :=
  Css.stage (self w) = Css.Completed.

Definition Anr_parked (w : Anr.W) : Prop :=
  Anr.tokenSub (self w) = false /\ Anr.pipe (self w) <> Anr.Embedding.

(** The outcome of the guard on the identifier. *)
Definition rejected_for_missing_id {P} (w : World P) : Prop :=
  requests (io w) = [] /\ embeds (io w) = [] /\
  errorMessage (signals w) = missingIdMessage /\ lifecycle w = error.




(** A burst: each notification is followed by a pause before the next one. *)
Definition burst (b : list (Rect * N)) : list Event :=
  flat_map (fun x => [ResizeNotify [fst x]; Elapse (snd x)]) b.

(** [distinctUntilChanged] drops [r] when it matches the remembered value. *)
Definition suppressed (last : option Rect) (r : Rect) : bool :=
  match last with
  | Some prev => Rx.same_size prev r
  | None => false
  end.

(** The element shows the size [r]. *)
Definition sized (r : Rect) (e : Element) : Prop :=
  styleWidth e = px (width r) /\ styleHeight e = px (height r).

(** What an emission writes. *)
Definition emitted_writes (ctx : Rx.EmbedContext) (last : option Rect) (r : Rect)
    : list (nat * Rect) :=
  if suppressed last r then []
  else match Rx.ctx_iframe ctx with
       | Some i => [(i, r)]
       | None => []
       end.

(** The token arrives and the SDK inserts [els]. *)
Definition embedded (tok : string) (els : list Element) : list Event :=
  activate ++ [TokenResponse (HttpBody (Some tok)); EmbedResolved els].

(** [RxjsDashboardComponent] after its first paint at 800x600. *)
Definition Rx_painted : Rx.W :=
  run RxjsPage (embedded "tok123" [iframeElement]
                  ++ [ResizeNotify [rect 800 600]; Elapse 100])
      (boot RxjsPage).

Definition Rx_painted_ctx : Rx.EmbedContext :=
  {| Rx.ctx_dashboardId := RxjsDashboardComponent.dashboardId;
     Rx.ctx_guestToken := Some "tok123";
     Rx.ctx_iframe := Some 0%nat |}.

(** The run of the 800x600 then 801x600 scenario: [gap] ms between the two
    notifications, [wait] ms after the second. *)
Definition scenario (el : Element) (gap wait : N) : list Event :=
  embedded "tok123" [el]
    ++ (burst [(rect 800 600, gap)] ++ [ResizeNotify [rect 801 600]; Elapse wait]).

(** Token, embed, one size notification, the debounce time, a render. *)
Definition first_paint (tok : string) (els : list Element) (r : Rect) (wait : N)
    : list Event :=
  embedded tok els ++ [ResizeNotify [r]; Elapse wait; Render].

(** After the first paint: the step is [done] and stays so. *)
Definition Rx_settled (w : Rx.W) : Prop :=
  currentStep (signals w) = done /\
  (Rx_parked w \/ exists ctx pending last,
                    Rx.stage (self w) = Rx.Observing ctx pending last).

Definition Sig_settled (w : Sig.W) : Prop :=
  currentStep (signals w) = done /\ Sig.async (self w) = Sig.Returned /\
  Sig.renderPending (self w) = false.

Definition paints (impl : Implementation) (settled : World (priv impl) -> Prop)
    (evs : list Event) (seq : list LifecycleState) : Prop :=
  settled (run impl evs (boot impl)) /\ transitions impl evs (boot impl) = seq.

Definition with_resize : list LifecycleState :=
  [at_step token; at_step embed; at_step resize; at_step done].

Definition without_resize : list LifecycleState :=
  [at_step token; at_step embed; at_step done].

(** The signals once the embed call has resolved. *)
Definition embedded_signals (step : Step) : Signals :=
  {| isLoading := false; hasError := false; errorMessage := ""; currentStep := step |}.

Definition before_paint : list LifecycleState :=
  [at_step token; at_step embed; at_step resize].

(** A signals component whose [initDashboard] has returned with an iframe. *)
Definition Sig_embedded (w : Sig.W) : Prop :=
  (exists i, Sig.iframeEl (self w) = Some i) /\
  Sig.resizeObserver (self w) = true /\
  Sig.async (self w) = Sig.Returned /\
  Sig.renderPending (self w) = false /\
  Sig.destroyed (self w) = false /\
  signals w = embedded_signals resize.

(** The iframe handle a component holds: [ctx.iframe] of the context the
    resize step of the pipeline closes over, resp. the field [iframeEl]. *)
Definition Rx_cached (w : Rx.W) : option nat :=
  match Rx.stage (self w) with
  | Rx.Observing ctx _ _ => Rx.ctx_iframe ctx
  | _ => None
  end.

Definition Sig_cached (w : Sig.W) : option nat := Sig.iframeEl (self w).

(** Every write goes to the handle held before the event, and a handle held
    after an event other than the resolution of the embed call was held
    before it: the mount target is queried when the embed call resolves and
    at no other time. *)
Definition writes_to_cached_handle (impl : Implementation)
    (cached : World (priv impl) -> option nat) : Prop :=
  forall w e, init_hook e = false ->
    (forall i r, In (i, r) (new_writes impl [e] w) -> cached w = Some i) /\
    (forall i, cached (handle impl e w) = Some i ->
               (forall els, e <> EmbedResolved els) -> cached w = Some i).

(** The SDK has replaced the iframe it first inserted. *)
Definition replaced : list Event :=
  embedded "tok123" [iframeElement] ++ [SdkReplace iframeElement].




(** ** Vocabulary of the further properties *)

(** The order of the steps. *)
Definition step_rank (s : Step) : nat :=
  match s with
  | idle => 0
  | token => 1
  | embed => 2
  | resize => 3
  | done => 4
  end.

(** At most one request and one embed call, and in this order: request,
    embed call, writes. *)
Definition ordered_logs {P} (w : World P) : Prop :=
  (length (requests (io w)) <= 1)%nat /\
  (length (embeds (io w)) <= 1)%nat /\
  (embeds (io w) <> [] -> requests (io w) <> []) /\
  (writes (io w) <> [] -> embeds (io w) <> []).

(** What holds at each suspension point of the RxJS pipeline. *)
Definition Rx_inv (w : Rx.W) : Prop :=
  match Rx.stage (self w) with
  | Rx.Unsubscribed =>
      requests (io w) = [] /\ embeds (io w) = [] /\ writes (io w) = [] /\
      currentStep (signals w) = idle
  | Rx.AwaitToken id =>
      requests (io w) = [SupersetService.url id] /\ embeds (io w) = [] /\
      writes (io w) = [] /\
      currentStep (signals w) = token /\ hasError (signals w) = false
  | Rx.AwaitEmbed ctx =>
      requests (io w) = [SupersetService.url (Rx.ctx_dashboardId ctx)] /\
      embeds (io w) = [Rx.ctx_dashboardId ctx] /\ writes (io w) = [] /\
      currentStep (signals w) = embed /\ hasError (signals w) = false
  | Rx.Observing ctx _ _ =>
      requests (io w) = [SupersetService.url (Rx.ctx_dashboardId ctx)] /\
      embeds (io w) = [Rx.ctx_dashboardId ctx] /\
      (currentStep (signals w) = resize \/ currentStep (signals w) = done) /\
      hasError (signals w) = false
  | Rx.Closed => ordered_logs w
  end.

(** What holds at each suspension point of [initDashboard]. *)
Definition Sig_inv (w : Sig.W) : Prop :=
  match Sig.async (self w) with
  | Sig.NotStarted =>
      requests (io w) = [] /\ embeds (io w) = [] /\ writes (io w) = [] /\
      currentStep (signals w) = idle /\ hasError (signals w) = false /\
      Sig.iframeEl (self w) = None
  | Sig.AwaitToken id =>
      requests (io w) = [SupersetService.url id] /\ embeds (io w) = [] /\
      writes (io w) = [] /\
      currentStep (signals w) = token /\ hasError (signals w) = false /\
      Sig.iframeEl (self w) = None /\ Sig.renderPending (self w) = false
  | Sig.AwaitEmbed =>
      length (requests (io w)) = 1%nat /\ length (embeds (io w)) = 1%nat /\
      writes (io w) = [] /\
      currentStep (signals w) = embed /\ hasError (signals w) = false /\
      Sig.iframeEl (self w) = None /\ Sig.renderPending (self w) = false
  | Sig.Returned =>
      ordered_logs w /\ Sig.renderPending (self w) = false /\
      (writes (io w) <> [] -> Sig.iframeEl (self w) <> None) /\
      (Sig.iframeEl (self w) <> None ->
         hasError (signals w) = false /\ length (embeds (io w)) = 1%nat /\
         (currentStep (signals w) = resize \/ currentStep (signals w) = done))
  end.

(** What holds at each suspension point of [CssDashboardComponent]. *)
Definition Css_inv (w : Css.W) : Prop :=
  writes (io w) = [] /\
  match Css.stage (self w) with
  | Css.Unsubscribed =>
      requests (io w) = [] /\ embeds (io w) = [] /\
      currentStep (signals w) = idle /\ hasError (signals w) = false
  | Css.AwaitToken id =>
      requests (io w) = [SupersetService.url id] /\ embeds (io w) = [] /\
      currentStep (signals w) = token /\ hasError (signals w) = false
  | Css.AwaitEmbed =>
      length (requests (io w)) = 1%nat /\ length (embeds (io w)) = 1%nat /\
      currentStep (signals w) = embed /\ hasError (signals w) = false
  | Css.Completed => ordered_logs w
  end.

(** What holds in [AfterNextRenderDashboardComponent] while the token
    subscription is open, resp. while the embed call runs. *)
Definition Anr_inv (w : Anr.W) : Prop :=
  writes (io w) = [] /\ ordered_logs w /\
  (Anr.tokenSub (self w) = true ->
     currentStep (signals w) = token /\ hasError (signals w) = false /\
     embeds (io w) = [] /\ requests (io w) <> [] /\
     Anr.pipe (self w) <> Anr.Embedding) /\
  (Anr.pipe (self w) = Anr.Embedding ->
     currentStep (signals w) = embed /\ hasError (signals w) = false /\
     Anr.tokenSub (self w) = false).

(** An [initDashboard] that is called once only keeps the invariant. *)
Definition Sig_init_ok (initDashboard : Sig.W -> Sig.W) : Prop :=
  forall w, Sig_inv w -> Sig.async (self w) = Sig.NotStarted ->
            Sig_inv (initDashboard (Sig.set_renderPending false w)).


(** The step did not move backwards from [w] to [w']. *)
Definition advances {P} (w w' : World P) : Prop :=
  (step_rank (currentStep (signals w)) <= step_rank (currentStep (signals w')))%nat.

(** Activation, the token arrives, the embed call rejects with [cause]. *)
Definition embed_failure (tok cause : string) : list Event :=
  activate ++ [TokenResponse (HttpBody (Some tok)); EmbedRejected cause].

(** The outcome of a rejected embed call. *)
Definition rejected_at_embed {P} (w : World P) : Prop :=
  errorMessage (signals w) = loadFailedMessage /\
  isLoading (signals w) = false /\
  length (embeds (io w)) = 1%nat /\
  writes (io w) = [].

(** Activation, then a response whose body has no [token] property. *)
Definition token_missing : list Event :=
  activate ++ [TokenResponse (HttpBody None)].

Definition embed_sequence : list LifecycleState :=
  [at_step token; at_step embed; error].

(** The operator [distinctUntilChanged] on a list: the values that differ
    in width or height from the one let through before them. *)
Fixpoint distinct_until_changed (last : option Rect) (rs : list Rect) : list Rect :=
  match rs with
  | [] => []
  | r :: rs' =>
      if suppressed last r
      then distinct_until_changed last rs'
      else r :: distinct_until_changed (Some r) rs'
  end.

(** What notifications that reach [distinctUntilChanged] one by one write. *)
Definition paced_writes (ctx : Rx.EmbedContext) (last : option Rect)
    (rs : list Rect) : list (nat * Rect) :=
  match Rx.ctx_iframe ctx with
  | Some i => map (pair i) (distinct_until_changed last rs)
  | None => []
  end.

(** One callback of the observer per size. *)
Definition notify_each (rs : list Rect) : list Event :=
  map (fun r => ResizeNotify [r]) rs.

(** The root component [App] ([src/unnamed/part_002]) holds the identifier
    for its [DashboardComponent]. *)
Module App.
Definition dashboardId : string := "abbb00fa-f7c9-4162-9c88-4a1ab1af1998".
End App.

(** ** [DashboardPageComponent]: the route parameter [:id] *)
Module DashboardPageComponent.

(** A [ParamMap]: the parameters of the route in their order. *)
Definition ParamMap := list (string * string).

(** [params.get(name)]: the first value of the parameter, or [null]. *)
Definition get (name : string) (params : ParamMap) : option string :=
  snd <$> List.find (fun kv => bool_decide (fst kv = name)) params.

(** [params.get('id') ?? '']. *)
Definition idOf (params : ParamMap) : string := default "" (get "id" params).

(** The signal [dashboardId]: [toSignal] with [initialValue: ''] holds the
    mapped value of the last parameter map the route emitted. *)
Definition dashboardId (emitted : list ParamMap) : string :=
  match last emitted with
  | Some params => idOf params
  | None => ""
  end.

End DashboardPageComponent.

(** ** The route tables: [app.routes.ts] and its two other versions *)
Module Routes.

Inductive Page :=
| RxjsDashboard
| LifecycleDashboard
| CssDashboard
| AfterNextRenderDashboard.

(** What a route does: [redirectTo], or [loadComponent] with its [title]. *)
Inductive Action :=
| RedirectTo (target : string)
| LoadComponent (page : Page) (title : string).

(** [pathMatchFull]: [pathMatch: 'full'] is given. *)
Record Route := { path : string; pathMatchFull : bool; action : Action }.



Definition lifecycle : Route :=
  {| path := "lifecycle"; pathMatchFull := false;
     action := LoadComponent LifecycleDashboard "ライフサイクル パターン版" |}.











End Routes.


(** Every element that is an iframe in [d] is one in [d']. *)
Definition tags_kept (d d' : Document) : Prop :=
  forall i, is_iframe d i = true -> is_iframe d' i = true.

(** The handle a component holds is an iframe, and so is every element a
    size was written to. *)
Definition only_iframes {P} (cached : World P -> option nat) (w : World P) : Prop :=
  (forall i, cached w = Some i -> is_iframe (document w) i = true) /\
  (forall i r, In (i, r) (writes (io w)) -> is_iframe (document w) i = true).

(** What one event may do: keep the iframes, and append writes to the
    handle held before it. *)
Definition writes_appended {P} (cached : World P -> option nat)
    (w w' : World P) : Prop :=
  tags_kept (document w) (document w') /\
  exists l, writes (io w') = writes (io w) ++ l /\
            forall i r, In (i, r) l -> cached w = Some i.

(** Every size in the log was written to an element that is an iframe. *)
Definition resized_iframes_only {P} (w : World P) : Prop :=
  forall i r, In (i, r) (writes (io w)) ->
  exists e, heap (document w) !! i = Some e /\ tagName e = "iframe".

(** An implementation whose embed call is rejected: it is parked, shows the
    generic error, and went through token and embed. *)
Definition fails_at_embed (impl : Implementation)
    (parked : World (priv impl) -> Prop) (tok cause : string) : Prop :=
  parked (run impl (embed_failure tok cause) (boot impl)) /\
  rejected_at_embed (run impl (embed_failure tok cause) (boot impl)) /\
  transitions impl (embed_failure tok cause) (boot impl) = embed_sequence.

(** An [initDashboard] touches neither the writes, the handle nor the
    document. *)
Definition Sig_init_frame (initDashboard : Sig.W -> Sig.W) : Prop :=
  forall v, writes (io (initDashboard v)) = writes (io v) /\
            Sig.iframeEl (self (initDashboard v)) = Sig.iframeEl (self v) /\
            document (initDashboard v) = document v.


(** [AfterNextRenderDashboardComponent] after the token was delivered to
    [guestToken$] while nothing was subscribed to it: the request is over,
    no embed call runs, and the signals are those [ngOnInit] set. *)
Definition Anr_token_lost (w : Anr.W) : Prop :=
  Anr.tokenSub (self w) = false /\
  Anr.pipe (self w) <> Anr.Embedding /\
  embedInFlight (io w) = false /\
  embeds (io w) = [] /\
  requests (io w) = [SupersetService.url Anr.dashboardId] /\
  writes (io w) = [] /\
  currentStep (signals w) = token /\
  isLoading (signals w) = true /\
  hasError (signals w) = false.

(** * Properties *)

(** ** Runs *)

Lemma run_app impl evs1 evs2 w :
  run impl (evs1 ++ evs2) w = run impl evs2 (run impl evs1 w).
Proof. unfold run. apply fold_left_app. Qed.

Lemma run_cons impl e evs w :
  run impl (e :: evs) w = run impl evs (handle impl e w).
Proof. reflexivity. Qed.

Lemma transitions_app impl evs1 evs2 w :
  transitions impl (evs1 ++ evs2) w =
  transitions impl evs1 w ++ transitions impl evs2 (run impl evs1 w).
Proof.
  revert w. induction evs1 as [|e evs1 IH]; intros w; simpl.
  - reflexivity.
  - rewrite IH, <- app_assoc. reflexivity.
Qed.

(** A predicate kept by every handler call is kept by every run. *)
Lemma run_invariant impl (I : World (priv impl) -> Prop) :
  (forall e w, I w -> I (handle impl e w)) ->
  forall evs w, I w -> I (run impl evs w).
Proof.
  intros Hstep evs. induction evs as [|e evs IH]; intros w Hw; simpl.
  - exact Hw.
  - apply IH, Hstep, Hw.
Qed.

Lemma run_invariant_tail impl (I : World (priv impl) -> Prop) :
  (forall e w, init_hook e = false -> I w -> I (handle impl e w)) ->
  forall evs w, Forall (fun e => init_hook e = false) evs -> I w -> I (run impl evs w).
Proof.
  intros Hstep evs w Hevs. revert w.
  induction Hevs as [|e evs He _ IH]; intros w Hw; simpl.
  - exact Hw.
  - apply IH, Hstep; assumption.
Qed.

(** ** Quiescence: once a component is parked for good, later events leave
    its signals and its logs alone *)
Section Quiescence.
Variable impl : Implementation.
Variable parked : World (priv impl) -> Prop.
Hypothesis parked_step : forall e w,
  parked w -> init_hook e = false ->
  parked (handle impl e w) /\
  signals (handle impl e w) = signals w /\
  logs (handle impl e w) = logs w.

Lemma parked_run evs w :
  parked w -> Forall (fun e => init_hook e = false) evs ->
  parked (run impl evs w) /\
  signals (run impl evs w) = signals w /\
  logs (run impl evs w) = logs w /\
  transitions impl evs w = [].
Proof.
  intros Hw Hevs. revert w Hw.
  induction Hevs as [|e evs He _ IH]; intros w Hw.
  - simpl. auto.
  - destruct (parked_step e w Hw He) as (Hp & Hs & Hl).
    destruct (IH _ Hp) as (Hp' & Hs' & Hl' & Ht').
    rewrite run_cons. simpl transitions.
    rewrite Hp' || idtac. repeat split.
    + exact Hp'.
    + congruence.
    + congruence.
    + rewrite Ht'. unfold lifecycle. rewrite Hs.
      destruct (decide _) as [_|Hne]; [reflexivity | congruence].
Qed.
End Quiescence.

Lemma loadFailedMessage_nonempty : loadFailedMessage <> "".
Proof. discriminate. Qed.

Lemma missingIdMessage_nonempty : missingIdMessage <> "".
Proof. discriminate. Qed.

(** Splits a statement about all implementations into one goal for each. *)
Ltac each_implementation :=
  unfold implementations; repeat apply Forall_cons_2; try apply Forall_nil_2.

(** ** The signals stay consistent (C10) *)

Ltac unfold_handlers :=
  unfold RxjsDashboardComponent.handle, DashboardComponentRx.handle,
    LifecycleDashboardComponent.handle, DashboardComponentSignals.handle,
    Rx.handle, Sig.handle, Css.handle, Anr.handle,
    RxjsDashboardComponent.ngAfterViewInit, DashboardComponentRx.ngAfterViewInit,
    LifecycleDashboardComponent.initDashboard, DashboardComponentSignals.initDashboard,
    Rx.startPipeline, Rx.onToken, Rx.onEmbedResolved, Rx.onEmbedRejected,
    Rx.onResize, Rx.onElapse, Rx.emit, Rx.apply_size, Rx.ngOnDestroy,
    Rx.destroy_signal, Rx.catchError, Rx.sdk_resolves, Rx.set_stage,
    Sig.render, Sig.afterNextRender_hook, Sig.afterRenderEffect_hook, Sig.try_start, Sig.afterToken, Sig.afterEmbed, Sig.embedThrows,
    Sig.onResize, Sig.effect, Sig.onDestroy, Sig.catch_block, Sig.sdk_resolves,
    Sig.set_async, Sig.set_iframeSize, Sig.set_effectDirty, Sig.set_iframeEl,
    Sig.set_resizeObserver, Sig.set_renderPending, Sig.set_destroyed,
    Css.ngAfterViewInit, Css.onToken, Css.onEmbedResolved, Css.onEmbedRejected,
    Css.ngOnDestroy, Css.catchError, Css.set_stage,
    Anr.ngOnInit, Anr.render, Anr.onToken, Anr.guestToken_next,
    Anr.onEmbedResolved, Anr.onEmbedRejected, Anr.ngOnDestroy,
    Anr.set_tokenSub, Anr.set_pipe,
    SupersetService.getGuestToken.

Ltac step_cases :=
  unfold_handlers; unfold write_size; cbn; repeat (case_match; cbn).

Ltac consistent_tac :=
  unfold signals_consistent; cbn;
  intuition (try discriminate; try congruence;
             auto using loadFailedMessage_nonempty, missingIdMessage_nonempty).

Lemma Rx_page_consistent e (w : Rx.W) :
  signals_consistent (signals w) ->
  signals_consistent (signals (RxjsDashboardComponent.handle e w)).
Proof. destruct e; step_cases; consistent_tac. Qed.

Lemma Rx_dashboard_consistent e (w : Rx.W) :
  signals_consistent (signals w) ->
  signals_consistent (signals (DashboardComponentRx.handle e w)).
Proof. destruct e; step_cases; consistent_tac. Qed.

Lemma Sig_page_consistent e (w : Sig.W) :
  signals_consistent (signals w) ->
  signals_consistent (signals (LifecycleDashboardComponent.handle e w)).
Proof. destruct e; step_cases; consistent_tac. Qed.

Lemma Sig_dashboard_consistent e (w : Sig.W) :
  signals_consistent (signals w) ->
  signals_consistent (signals (DashboardComponentSignals.handle e w)).
Proof. destruct e; step_cases; consistent_tac. Qed.

Lemma Css_consistent e (w : Css.W) :
  signals_consistent (signals w) ->
  signals_consistent (signals (Css.handle e w)).
Proof. destruct e; step_cases; consistent_tac. Qed.

Lemma Anr_consistent e (w : Anr.W) :
  signals_consistent (signals w) ->
  signals_consistent (signals (Anr.handle e w)).
Proof. destruct e; step_cases; consistent_tac. Qed.

Lemma boot_consistent impl : signals_consistent (signals (boot impl)).
Proof. intros H. discriminate H. Qed.

(** C10. In every implementation, after every handler of every run from
    construction (activation start, missing identifier, token failure, embed
    failure, first paint, and all others), [hasError] implies that
    [isLoading] is false and that [errorMessage] is not empty. *)
Theorem signals_consistent_always (id : option string) :
  Forall (fun impl => forall evs,
            signals_consistent (signals (run impl evs (boot impl))))
         (implementations id).
Proof.
  each_implementation; intros evs;
    apply (run_invariant _ (fun w => signals_consistent (signals w)));
    auto using boot_consistent.
  - apply Rx_page_consistent.
  - apply Rx_dashboard_consistent.
  - apply Sig_page_consistent.
  - apply Sig_dashboard_consistent.
  - apply Css_consistent.
  - apply Anr_consistent.
Qed.

(** ** Teardown (C8) *)

Ltac world_cases w :=
  destruct w as [[? ? ? ?] [? ?] [? ? ? ?] ?]; cbn.











(** ** Parked components *)

Ltac parked_tac :=
  step_cases; unfold logs; cbn;
  intuition (try discriminate; try congruence).

Lemma Rx_parked_step ngAfterViewInit e (w : Rx.W) :
  Rx_parked w -> init_hook e = false ->
  Rx_parked (Rx.handle ngAfterViewInit e w) /\
  signals (Rx.handle ngAfterViewInit e w) = signals w /\
  logs (Rx.handle ngAfterViewInit e w) = logs w.
Proof.
  unfold Rx_parked. destruct w as [sg dm o [id st stopped]].
  destruct e; try discriminate; cbn; intros [-> | ->] _; parked_tac.
Qed.

Lemma Sig_parked_step initDashboard logsToken e (w : Sig.W) :
  Sig_parked w -> init_hook e = false ->
  Sig_parked (Sig.handle initDashboard logsToken e w) /\
  signals (Sig.handle initDashboard logsToken e w) = signals w /\
  logs (Sig.handle initDashboard logsToken e w) = logs w.
Proof.
  unfold Sig_parked. destruct w as [sg dm o [id sz dirty el ro a rp dd]].
  destruct e; try discriminate; cbn; intros (-> & -> & ->) _; parked_tac.
Qed.

Lemma Css_parked_step e (w : Css.W) :
  Css_parked w -> init_hook e = false ->
  Css_parked (Css.handle e w) /\
  signals (Css.handle e w) = signals w /\
  logs (Css.handle e w) = logs w.
Proof.
  unfold Css_parked. destruct w as [sg dm o [st]].
  destruct e; try discriminate; cbn; intros -> _; parked_tac.
Qed.

Lemma Anr_parked_step e (w : Anr.W) :
  Anr_parked w -> init_hook e = false ->
  Anr_parked (Anr.handle e w) /\
  signals (Anr.handle e w) = signals w /\
  logs (Anr.handle e w) = logs w.
Proof.
  unfold Anr_parked. destruct w as [sg dm o [ts pp stopped]].
  destruct e; try discriminate; cbn; intros (-> & Hp) _; parked_tac.
Qed.

(** ** Missing identifier (C5) *)

Lemma Rx_dashboard_missing_id id :
  falsy id = true ->
  let w := run (DashboardRx id) activate (boot (DashboardRx id)) in
  Rx_parked w /\ rejected_for_missing_id w /\
  transitions (DashboardRx id) activate (boot (DashboardRx id)) = [error].
Proof.
  intros Hid. cbn. unfold DashboardComponentRx.ngAfterViewInit. cbn.
  rewrite Hid. cbn. unfold Rx_parked, rejected_for_missing_id. cbn. auto 10.
Qed.

Lemma Sig_dashboard_missing_id id :
  falsy id = true ->
  let w := run (DashboardSignals id) activate (boot (DashboardSignals id)) in
  Sig_parked w /\ rejected_for_missing_id w /\
  transitions (DashboardSignals id) activate (boot (DashboardSignals id)) = [error].
Proof.
  intros Hid. cbn. unfold DashboardComponentSignals.initDashboard. cbn.
  rewrite Hid. cbn. unfold Sig_parked, rejected_for_missing_id. cbn. auto 10.
Qed.

(** A parked component that was rejected stays rejected. *)
Lemma rejected_kept {P} (w w' : World P) :
  signals w' = signals w -> logs w' = logs w ->
  rejected_for_missing_id w -> rejected_for_missing_id w'.
Proof.
  unfold rejected_for_missing_id, logs, lifecycle.
  intros -> Hl. injection Hl as -> -> _. auto.
Qed.

(** C5. When the identifier bound to a [DashboardComponent] is absent or
    empty, activation changes the lifecycle state once, to [error], no
    request is issued and [embedDashboard] is not called, whatever happens
    afterwards; the message is the missing-identifier one. *)
Theorem missing_identifier_fails_fast (id : option string) (tail : list Event) :
  falsy id = true ->
  Forall (fun e => init_hook e = false) tail ->
  Forall (fun impl =>
            transitions impl (activate ++ tail) (boot impl) = [error] /\
            rejected_for_missing_id (run impl (activate ++ tail) (boot impl)))
         [DashboardRx id; DashboardSignals id].
Proof.
  intros Hid Htail.
  repeat apply Forall_cons_2; try apply Forall_nil_2;
    rewrite transitions_app, run_app.
  - destruct (Rx_dashboard_missing_id id Hid) as (Hp & Hr & Ht).
    destruct (parked_run (DashboardRx id) Rx_parked
                (Rx_parked_step _) tail _ Hp Htail) as (_ & Hs & Hl & Ht').
    rewrite Ht, Ht'. split; [reflexivity | eauto using rejected_kept].
  - destruct (Sig_dashboard_missing_id id Hid) as (Hp & Hr & Ht).
    destruct (parked_run (DashboardSignals id) Sig_parked
                (Sig_parked_step _ _) tail _ Hp Htail) as (_ & Hs & Hl & Ht').
    rewrite Ht, Ht'. split; [reflexivity | eauto using rejected_kept].
Qed.

Lemma missing_identifier_fails_fast_witness :
  Forall (fun impl =>
            transitions impl (activate ++ [Render; Destroy]) (boot impl) = [error] /\
            rejected_for_missing_id
              (run impl (activate ++ [Render; Destroy]) (boot impl)))
         [DashboardRx (Some ""); DashboardSignals (Some "")].
Proof.
  apply (missing_identifier_fails_fast (Some "") [Render; Destroy]).
  - reflexivity.
  - repeat constructor.
Defined.

(** ** Credential failure (C6) *)












(** ** Resize synchronisation in the RxJS pipeline *)

Section RxResize.
Variable ngAfterViewInit : Rx.W -> Rx.W.
Variable init : Rx.State.
Let impl := Rx_component ngAfterViewInit init.

Lemma Rx_same_size_eq a b : Rx.same_size a b = true -> a = b.
Proof.
  destruct a as [wa ha], b as [wb hb]. unfold Rx.same_size. cbn.
  intros H. apply andb_prop in H as [Hw Hh].
  apply N.eqb_eq in Hw, Hh. congruence.
Qed.

Lemma Rx_emit_set_stage ctx last r st (w : Rx.W) :
  Rx.emit ctx last r (Rx.set_stage st w) = Rx.emit ctx last r w.
Proof.
  unfold Rx.emit, Rx.apply_size, Rx.set_stage.
  destruct last as [prev|]; [destruct (Rx.same_size prev r)|];
    destruct (Rx.ctx_iframe ctx); reflexivity.
Qed.

(** A notification followed by less than the debounce time: only the held
    value and its timer change. *)
Lemma Rx_notify_early ctx pending last r ms (w : Rx.W) :
  Rx.stage (self w) = Rx.Observing ctx pending last ->
  ms < Rx.dueTime ->
  run impl [ResizeNotify [r]; Elapse ms] w =
  Rx.set_stage (Rx.Observing ctx (Some (r, Rx.dueTime - ms)) last) w.
Proof.
  intros Hst Hms. cbn. unfold Rx.onResize. rewrite Hst. cbn.
  unfold Rx.onElapse. cbn. apply N.leb_gt in Hms. rewrite Hms. reflexivity.
Qed.

(** A notification followed by at least the debounce time is emitted. *)
Lemma Rx_notify_due ctx pending last r ms (w : Rx.W) :
  Rx.stage (self w) = Rx.Observing ctx pending last ->
  Rx.dueTime <= ms ->
  run impl [ResizeNotify [r]; Elapse ms] w = Rx.emit ctx last r w.
Proof.
  intros Hst Hms. cbn. unfold Rx.onResize. rewrite Hst. cbn.
  unfold Rx.onElapse. cbn. apply N.leb_le in Hms. rewrite Hms.
  apply Rx_emit_set_stage.
Qed.

(** Only the last notification of a burst reaches [distinctUntilChanged]. *)
Lemma Rx_burst_emits_last b : forall ctx pending last r wait (w : Rx.W),
  Rx.stage (self w) = Rx.Observing ctx pending last ->
  Forall (fun x => snd x < Rx.dueTime) b ->
  Rx.dueTime <= wait ->
  run impl (burst b ++ [ResizeNotify [r]; Elapse wait]) w = Rx.emit ctx last r w.
Proof.
  induction b as [|[r0 g0] b IH]; intros ctx pending last r wait w Hst Hb Hwait.
  - cbn [burst flat_map app]. eapply Rx_notify_due; eassumption.
  - inversion Hb as [|x l Hg Hb']; subst. cbn in Hg.
    change (burst ((r0, g0) :: b) ++ [ResizeNotify [r]; Elapse wait])
      with ([ResizeNotify [r0]; Elapse g0] ++
            (burst b ++ [ResizeNotify [r]; Elapse wait])).
    rewrite run_app, (Rx_notify_early ctx pending last r0 g0 w Hst Hg).
    erewrite IH; [apply Rx_emit_set_stage | reflexivity | assumption | assumption].
Qed.

Lemma notifications_burst b r wait :
  notifications (burst b ++ [ResizeNotify [r]; Elapse wait]) = S (length b).
Proof.
  induction b as [|[r0 g0] b IH]; [reflexivity|].
  change (burst ((r0, g0) :: b)) with ([ResizeNotify [r0]; Elapse g0] ++ burst b).
  rewrite <- app_assoc. simpl. f_equal. exact IH.
Qed.

Lemma Rx_emit_writes ctx last r (w : Rx.W) :
  writes (io (Rx.emit ctx last r w)) = writes (io w) ++ emitted_writes ctx last r.
Proof.
  unfold Rx.emit, Rx.apply_size, emitted_writes, suppressed.
  destruct last as [prev|]; [destruct (Rx.same_size prev r)|];
    destruct (Rx.ctx_iframe ctx); cbn; rewrite ?app_nil_r; reflexivity.
Qed.

Lemma Rx_emit_stage ctx last r (w : Rx.W) :
  Rx.stage (self (Rx.emit ctx last r w)) =
  Rx.Observing ctx None (if suppressed last r then last else Some r).
Proof.
  unfold Rx.emit, suppressed.
  destruct last as [prev|]; [destruct (Rx.same_size prev r)|]; reflexivity.
Qed.



(** After an emission the located element shows the emitted size, provided
    it showed the remembered size before. *)
Lemma Rx_emit_sized ctx last r i e (w : Rx.W) :
  Rx.ctx_iframe ctx = Some i ->
  heap (document w) !! i = Some e ->
  (forall prev, last = Some prev -> sized prev e) ->
  exists e', heap (document (Rx.emit ctx last r w)) !! i = Some e' /\ sized r e'.
Proof.
  intros Hi He Hprev. unfold Rx.emit, Rx.apply_size. rewrite Hi.
  assert (Hw : exists e', heap (document (write_size i r w)) !! i = Some e' /\ sized r e').
  { unfold write_size. cbn. rewrite He. exists (resized r e). split.
    - apply list_lookup_insert_eq. eapply lookup_lt_Some; eassumption.
    - split; reflexivity. }
  destruct last as [prev|]; [destruct (Rx.same_size prev r) eqn:Hsame|]; cbn.
  - exists e. split; [assumption|].
    apply Rx_same_size_eq in Hsame. subst r. auto.
  - exact Hw.
  - exact Hw.
Qed.

Lemma new_writes_app evs (w : Rx.W) l :
  writes (io (run impl evs w)) = writes (io w) ++ l ->
  new_writes impl evs w = l.
Proof. intros H. unfold new_writes. rewrite H. apply drop_app_length. Qed.

End RxResize.

Lemma Rx_painted_stage :
  Rx.stage (self Rx_painted) = Rx.Observing Rx_painted_ctx None (Some (rect 800 600)).
Proof. reflexivity. Qed.

(** C3, as the code has it. In the RxJS components, a burst of
    notifications in which each follows the previous one by less than the
    debounce time, followed by a pause of at least that time, causes at most
    one write: none when the last notified size equals the last applied one
    or no iframe was located, otherwise one write of the last notified size.
    So a burst of two or more notifications causes fewer writes than
    notifications, and afterwards the located element shows the last notified
    size. *)
Theorem burst_is_coalesced ngAfterViewInit init (w : Rx.W)
    ctx pending last (b : list (Rect * N)) (r : Rect) (wait : N) :
  let impl := Rx_component ngAfterViewInit init in
  let evs := burst b ++ [ResizeNotify [r]; Elapse wait] in
  Rx.stage (self w) = Rx.Observing ctx pending last ->
  Forall (fun x => snd x < Rx.dueTime) b ->
  Rx.dueTime <= wait ->
  new_writes impl evs w = emitted_writes ctx last r /\
  (length (new_writes impl evs w) <= 1)%nat /\
  (b <> [] -> (length (new_writes impl evs w) < notifications evs)%nat) /\
  (forall i e, Rx.ctx_iframe ctx = Some i ->
     heap (document w) !! i = Some e ->
     (forall prev, last = Some prev -> sized prev e) ->
     exists e', heap (document (run impl evs w)) !! i = Some e' /\ sized r e').
Proof.
  intros impl evs Hst Hb Hwait. subst impl evs.
  set (impl := Rx_component ngAfterViewInit init).
  set (evs := burst b ++ [ResizeNotify [r]; Elapse wait]).
  assert (Hrun : run impl evs w = Rx.emit ctx last r w)
    by (eapply Rx_burst_emits_last; eassumption).
  assert (Hnew : new_writes impl evs w = emitted_writes ctx last r)
    by (apply (new_writes_app ngAfterViewInit init); fold impl;
        rewrite Hrun; apply Rx_emit_writes).
  assert (Hlen : (length (emitted_writes ctx last r) <= 1)%nat).
  { unfold emitted_writes. destruct (suppressed last r); [cbn; lia|].
    destruct (Rx.ctx_iframe ctx); cbn; lia. }
  rewrite Hnew. repeat split.
  - exact Hlen.
  - intros Hne. subst evs. rewrite notifications_burst.
    destruct b; [congruence | cbn [length]; lia].
  - intros i e Hi He Hprev. rewrite Hrun. eapply Rx_emit_sized; eassumption.
Qed.

Lemma burst_is_coalesced_witness :
  new_writes RxjsPage
    (burst [(rect 810 600, 20); (rect 820 600, 99)]
       ++ [ResizeNotify [rect 830 600]; Elapse 100])
    Rx_painted
  = [(0%nat, rect 830 600)].
Proof.
  apply (burst_is_coalesced RxjsDashboardComponent.ngAfterViewInit
           RxjsDashboardComponent.initial Rx_painted
           Rx_painted_ctx None (Some (rect 800 600))
           [(rect 810 600, 20); (rect 820 600, 99)] (rect 830 600) 100).
  - exact Rx_painted_stage.
  - repeat constructor.
  - reflexivity.
Defined.

(** C3, as stated, fails in the signals components: they have no debounce
    and no comparison with the last applied size, so two notifications, each
    followed by a render, cause two writes. *)
Lemma signals_version_does_not_coalesce :
  let painted :=
    run LifecyclePage (embedded "tok123" [iframeElement]
                         ++ [ResizeNotify [rect 800 600]; Render])
        (boot LifecyclePage) in
  let evs := [ResizeNotify [rect 801 600]; Elapse 10; Render;
              ResizeNotify [rect 802 600]; Elapse 10; Render; Elapse 100] in
  lifecycle painted = at_step done /\
  notifications evs = 2%nat /\
  new_writes LifecyclePage evs painted
    = [(0%nat, rect 801 600); (0%nat, rect 802 600)] /\
  ~ (length (new_writes LifecyclePage evs painted) < notifications evs)%nat.
Proof.
  cbv zeta. repeat split; try reflexivity.
  vm_compute. lia.
Qed.

(** ** First paint and after (C7) *)




(** ** The 800x600 then 801x600 scenario (C4) *)

(** C4. [RxjsDashboardComponent], whose identifier is
    abbb00fa-f7c9-4162-9c88-4a1ab1af1998: the endpoint answers
    [{ token: "tok123" }], the SDK inserts one iframe, the mount target is
    notified 800x600 and, at most 50 ms later, 801x600, and the debounce time
    passes.  Exactly one write occurs, of 801x600, the iframe shows
    801px by 600px, and the lifecycle state is [done]. *)
Theorem scenario_800_then_801 (el : Element) (gap wait : N) :
  tagName el = "iframe" ->
  gap <= 50 ->
  Rx.dueTime <= wait ->
  let w := run RxjsPage (scenario el gap wait) (boot RxjsPage) in
  Rx.dashboardId (self w) = Some "abbb00fa-f7c9-4162-9c88-4a1ab1af1998" /\
  requests (io w) =
    ["http://localhost:3000/superset/guest-token/abbb00fa-f7c9-4162-9c88-4a1ab1af1998"] /\
  embeds (io w) = ["abbb00fa-f7c9-4162-9c88-4a1ab1af1998"] /\
  writes (io w) = [(0%nat, rect 801 600)] /\
  heap (document w) =
    [{| tagName := "iframe"; styleWidth := "801px"; styleHeight := "600px" |}] /\
  lifecycle w = at_step done.
Proof.
  intros Htag Hgap Hwait. destruct el as [tg sw sh]. cbn in Htag. subst tg.
  cbv zeta. unfold scenario, RxjsPage. rewrite run_app.
  set (w0 := run _ (embedded "tok123" _) _).
  assert (Hst : Rx.stage (self w0) = Rx.Observing Rx_painted_ctx None None)
    by reflexivity.
  rewrite (Rx_burst_emits_last RxjsDashboardComponent.ngAfterViewInit
             RxjsDashboardComponent.initial [(rect 800 600, gap)]
             Rx_painted_ctx None None (rect 801 600) wait w0 Hst).
  - repeat split.
  - repeat constructor. cbn. unfold Rx.dueTime. lia.
  - exact Hwait.
Qed.

Lemma scenario_800_then_801_witness :
  writes (io (run RxjsPage (scenario iframeElement 50 100) (boot RxjsPage)))
    = [(0%nat, rect 801 600)] /\
  lifecycle (run RxjsPage (scenario iframeElement 50 100) (boot RxjsPage))
    = at_step done.
Proof.
  destruct (scenario_800_then_801 iframeElement 50 100)
    as (_ & _ & _ & Hw & _ & Hdone).
  - reflexivity.
  - vm_compute. discriminate.
  - vm_compute. discriminate.
  - split; [exact Hw | exact Hdone].
Defined.

(** ** The lifecycle sequence of a successful activation (C1) *)

(** Once [settled], the lifecycle state changes no more. *)
Section Settled.
Variable impl : Implementation.
Variable settled : World (priv impl) -> Prop.
Hypothesis settled_step : forall e w,
  settled w -> init_hook e = false ->
  settled (handle impl e w) /\ lifecycle (handle impl e w) = lifecycle w.

Lemma settled_run evs w :
  settled w -> Forall (fun e => init_hook e = false) evs ->
  transitions impl evs w = [].
Proof.
  intros Hw Hevs. revert w Hw.
  induction Hevs as [|e evs He _ IH]; intros w Hw; [reflexivity|].
  destruct (settled_step e w Hw He) as (Hs & Hl).
  simpl. rewrite (IH _ Hs).
  destruct (decide _) as [_|Hne]; [reflexivity | congruence].
Qed.

Lemma settled_sequence evs tail seq :
  settled (run impl evs (boot impl)) ->
  transitions impl evs (boot impl) = seq ->
  Forall (fun e => init_hook e = false) tail ->
  transitions impl (evs ++ tail) (boot impl) = seq.
Proof.
  intros Hs Ht Htail.
  rewrite transitions_app, Ht, (settled_run tail _ Hs Htail).
  apply app_nil_r.
Qed.
End Settled.

Lemma Rx_settled_step ngAfterViewInit e (w : Rx.W) :
  Rx_settled w -> init_hook e = false ->
  Rx_settled (Rx.handle ngAfterViewInit e w) /\
  lifecycle (Rx.handle ngAfterViewInit e w) = lifecycle w.
Proof.
  unfold Rx_settled, Rx_parked, lifecycle.
  destruct w as [[ld er msg st] dm o [id sg stopped]]. cbn.
  intros (-> & Hst) He.
  destruct e; try discriminate; step_cases;
    try discriminate;
    (split; [split; [reflexivity | eauto 8] | reflexivity])
    || (exfalso; destruct Hst as [[?|?]|(? & ? & ? & ?)]; congruence).
Qed.

Lemma Sig_settled_step initDashboard logsToken e (w : Sig.W) :
  Sig_settled w -> init_hook e = false ->
  Sig_settled (Sig.handle initDashboard logsToken e w) /\
  lifecycle (Sig.handle initDashboard logsToken e w) = lifecycle w.
Proof.
  unfold Sig_settled, lifecycle.
  destruct w as [[ld er msg st] dm o [id sz dirty el ro a rp dd]]. cbn.
  intros (-> & -> & ->) He.
  destruct e; try discriminate; step_cases; auto.
Qed.

Lemma Css_settled_step e (w : Css.W) :
  Css_parked w -> init_hook e = false ->
  Css_parked (Css.handle e w) /\ lifecycle (Css.handle e w) = lifecycle w.
Proof.
  intros Hp He. destruct (Css_parked_step e w Hp He) as (H1 & H2 & _).
  unfold lifecycle. rewrite H2. auto.
Qed.

Lemma Anr_settled_step e (w : Anr.W) :
  Anr_parked w -> init_hook e = false ->
  Anr_parked (Anr.handle e w) /\ lifecycle (Anr.handle e w) = lifecycle w.
Proof.
  intros Hp He. destruct (Anr_parked_step e w Hp He) as (H1 & H2 & _).
  unfold lifecycle. rewrite H2. auto.
Qed.

Lemma dueTime_elapsed wait : Rx.dueTime <= wait -> (Rx.dueTime <=? wait) = true.
Proof. intros H. apply N.leb_le. exact H. Qed.

Lemma Rx_page_embedded tok els :
  let w := run RxjsPage (embedded tok els) (boot RxjsPage) in
  (exists ctx, Rx.stage (self w) = Rx.Observing ctx None None) /\
  signals w = embedded_signals resize /\
  transitions RxjsPage (embedded tok els) (boot RxjsPage) = before_paint.
Proof. cbv zeta. split; [eexists; reflexivity | split; reflexivity]. Qed.

Lemma Rx_dashboard_activated id :
  falsy id = false ->
  run (DashboardRx id) activate (boot (DashboardRx id))
    = Rx.startPipeline (default "" id) (boot (DashboardRx id)) /\
  transitions (DashboardRx id) activate (boot (DashboardRx id)) = [at_step token].
Proof.
  intros Hid. cbn. unfold DashboardComponentRx.ngAfterViewInit. cbn.
  rewrite Hid. split; reflexivity.
Qed.

Lemma Rx_dashboard_embedded id tok els :
  falsy id = false ->
  let w := run (DashboardRx id) (embedded tok els) (boot (DashboardRx id)) in
  (exists ctx, Rx.stage (self w) = Rx.Observing ctx None None) /\
  signals w = embedded_signals resize /\
  transitions (DashboardRx id) (embedded tok els) (boot (DashboardRx id)) = before_paint.
Proof.
  intros Hid. cbv zeta. unfold embedded.
  destruct (Rx_dashboard_activated id Hid) as (Hrun & Ht).
  rewrite run_app, transitions_app, Hrun, Ht.
  split; [eexists; reflexivity | split; reflexivity].
Qed.

(** From the resize step, the first emission is the first paint. *)
Lemma Rx_first_paint ngAfterViewInit init (w : Rx.W) ctx r wait :
  let impl := Rx_component ngAfterViewInit init in
  let evs := [ResizeNotify [r]; Elapse wait; Render] in
  Rx.stage (self w) = Rx.Observing ctx None None ->
  signals w = embedded_signals resize ->
  Rx.dueTime <= wait ->
  Rx_settled (run impl evs w) /\ transitions impl evs w = [at_step done].
Proof.
  intros impl evs Hst Hsig Hwait. subst impl evs.
  destruct w as [sg dm o [id st stopped]]. cbn in Hst, Hsig. subst st sg.
  unfold Rx_settled, Rx_parked. cbn.
  unfold Rx.onElapse. cbn. rewrite (dueTime_elapsed _ Hwait).
  unfold Rx.apply_size, embedded_signals, lifecycle.
  destruct (Rx.ctx_iframe ctx); cbn; eauto 10.
Qed.

Lemma paints_app impl (settled : World (priv impl) -> Prop) evs1 evs2 seq1 seq2 :
  transitions impl evs1 (boot impl) = seq1 ->
  settled (run impl evs2 (run impl evs1 (boot impl))) /\
  transitions impl evs2 (run impl evs1 (boot impl)) = seq2 ->
  paints impl settled (evs1 ++ evs2) (seq1 ++ seq2).
Proof.
  intros H1 (Hs & H2). unfold paints.
  rewrite run_app, transitions_app, H1, H2. auto.
Qed.

Lemma Rx_page_paints tok els r wait :
  Rx.dueTime <= wait ->
  paints RxjsPage Rx_settled (first_paint tok els r wait) with_resize.
Proof.
  intros Hwait.
  destruct (Rx_page_embedded tok els) as ((ctx & Hst) & Hsig & Ht).
  apply (paints_app RxjsPage Rx_settled _ _ before_paint [at_step done] Ht).
  eapply (Rx_first_paint RxjsDashboardComponent.ngAfterViewInit); eassumption.
Qed.

Lemma Rx_dashboard_paints id tok els r wait :
  falsy id = false ->
  Rx.dueTime <= wait ->
  paints (DashboardRx id) Rx_settled (first_paint tok els r wait) with_resize.
Proof.
  intros Hid Hwait.
  destruct (Rx_dashboard_embedded id tok els Hid) as ((ctx & Hst) & Hsig & Ht).
  apply (paints_app (DashboardRx id) Rx_settled _ _ before_paint [at_step done] Ht).
  eapply (Rx_first_paint DashboardComponentRx.ngAfterViewInit); eassumption.
Qed.

Lemma Sig_page_embedded tok el rest :
  tagName el = "iframe" ->
  Sig_embedded (run LifecyclePage (embedded tok (el :: rest)) (boot LifecyclePage)) /\
  transitions LifecyclePage (embedded tok (el :: rest)) (boot LifecyclePage)
    = before_paint.
Proof.
  intros Htag. destruct el as [tg sw sh]. cbn in Htag. subst tg.
  unfold Sig_embedded. repeat split. exists 0%nat. reflexivity.
Qed.

Lemma Sig_dashboard_activated id :
  falsy id = false ->
  run (DashboardSignals id) activate (boot (DashboardSignals id))
    = Sig.set_effectDirty false
        (Sig.try_start (default "" id)
           (Sig.set_renderPending false (boot (DashboardSignals id)))) /\
  transitions (DashboardSignals id) activate (boot (DashboardSignals id))
    = [at_step token].
Proof.
  intros Hid. cbn. unfold Sig.render, Sig.afterNextRender_hook. cbn.
  unfold DashboardComponentSignals.initDashboard. cbn.
  rewrite Hid. split; reflexivity.
Qed.

Lemma Sig_dashboard_embedded id tok el rest :
  falsy id = false ->
  tagName el = "iframe" ->
  Sig_embedded (run (DashboardSignals id) (embedded tok (el :: rest))
                    (boot (DashboardSignals id))) /\
  transitions (DashboardSignals id) (embedded tok (el :: rest))
              (boot (DashboardSignals id))
    = before_paint.
Proof.
  intros Hid Htag. destruct el as [tg sw sh]. cbn in Htag. subst tg.
  unfold embedded. destruct (Sig_dashboard_activated id Hid) as (Hrun & Ht).
  rewrite run_app, transitions_app, Hrun, Ht.
  unfold Sig_embedded. repeat split. exists 0%nat. reflexivity.
Qed.

(** From the resize step, the first render after a notification is the first
    paint, provided an iframe was located. *)
Lemma Sig_first_paint initDashboard logsToken init (w : Sig.W) r wait :
  let impl := Sig_component initDashboard logsToken init in
  let evs := [ResizeNotify [r]; Elapse wait; Render] in
  Sig_embedded w ->
  Sig_settled (run impl evs w) /\ transitions impl evs w = [at_step done].
Proof.
  intros impl evs ((i & Hi) & Hro & Ha & Hrp & Hd & Hsig). subst impl evs.
  destruct w as [sg dm o [id sz dirty el ro a rp dd]]. cbn in *. subst.
  unfold Sig_settled. cbn. unfold Sig.render. cbn. destruct r as [rw rh].
  split; [repeat split | reflexivity].
Qed.

Lemma Sig_page_paints tok el rest r wait :
  tagName el = "iframe" ->
  paints LifecyclePage Sig_settled (first_paint tok (el :: rest) r wait) with_resize.
Proof.
  intros Htag. destruct (Sig_page_embedded tok el rest Htag) as (He & Ht).
  apply (paints_app LifecyclePage Sig_settled _ _ before_paint [at_step done] Ht).
  apply (Sig_first_paint LifecycleDashboardComponent.initDashboard true), He.
Qed.

Lemma Sig_dashboard_paints id tok el rest r wait :
  falsy id = false ->
  tagName el = "iframe" ->
  paints (DashboardSignals id) Sig_settled
         (first_paint tok (el :: rest) r wait) with_resize.
Proof.
  intros Hid Htag.
  destruct (Sig_dashboard_embedded id tok el rest Hid Htag) as (He & Ht).
  apply (paints_app (DashboardSignals id) Sig_settled _ _
           before_paint [at_step done] Ht).
  apply (Sig_first_paint DashboardComponentSignals.initDashboard false), He.
Qed.

Lemma Css_paints tok els r wait :
  paints CssPage Css_parked (first_paint tok els r wait) without_resize.
Proof. unfold paints. split; reflexivity. Qed.

Lemma Anr_paints tok els r wait :
  paints AfterNextRenderPage Anr_parked (first_paint tok els r wait) without_resize.
Proof. unfold paints, Anr_parked. repeat split. discriminate. Qed.

(** C1, as the code has it. With an identifier, a token and an embed call
    that inserts an iframe, followed by a size notification, the debounce
    time and a render, the lifecycle state passes through exactly
    token, embed, resize, done in the RxJS and the signals components, and
    through exactly token, embed, done in [CssDashboardComponent] and
    [AfterNextRenderDashboardComponent], which have no resize step; nothing
    that happens afterwards changes it again. *)
Theorem lifecycle_sequence (id : option string) (tok : string)
    (el : Element) (rest : list Element) (r : Rect) (wait : N) (tail : list Event) :
  falsy id = false ->
  tagName el = "iframe" ->
  Rx.dueTime <= wait ->
  Forall (fun e => init_hook e = false) tail ->
  let evs := first_paint tok (el :: rest) r wait ++ tail in
  Forall (fun impl => transitions impl evs (boot impl) = with_resize)
         [RxjsPage; DashboardRx id; LifecyclePage; DashboardSignals id] /\
  Forall (fun impl => transitions impl evs (boot impl) = without_resize)
         [CssPage; AfterNextRenderPage].
Proof.
  intros Hid Htag Hwait Htail. cbv zeta.
  split; repeat apply Forall_cons_2; try apply Forall_nil_2.
  - destruct (Rx_page_paints tok (el :: rest) r wait Hwait) as (Hs & Ht).
    apply (settled_sequence RxjsPage Rx_settled (Rx_settled_step _)); assumption.
  - destruct (Rx_dashboard_paints id tok (el :: rest) r wait Hid Hwait) as (Hs & Ht).
    apply (settled_sequence (DashboardRx id) Rx_settled (Rx_settled_step _));
      assumption.
  - destruct (Sig_page_paints tok el rest r wait Htag) as (Hs & Ht).
    apply (settled_sequence LifecyclePage Sig_settled (Sig_settled_step _ _));
      assumption.
  - destruct (Sig_dashboard_paints id tok el rest r wait Hid Htag) as (Hs & Ht).
    apply (settled_sequence (DashboardSignals id) Sig_settled (Sig_settled_step _ _));
      assumption.
  - destruct (Css_paints tok (el :: rest) r wait) as (Hs & Ht).
    apply (settled_sequence CssPage Css_parked Css_settled_step); assumption.
  - destruct (Anr_paints tok (el :: rest) r wait) as (Hs & Ht).
    apply (settled_sequence AfterNextRenderPage Anr_parked Anr_settled_step);
      assumption.
Qed.

Lemma lifecycle_sequence_witness :
  let evs := first_paint "tok123" [iframeElement] (rect 800 600) 100
               ++ [ResizeNotify [rect 640 480]; Elapse 250; Render; Destroy] in
  Forall (fun impl => transitions impl evs (boot impl) = with_resize)
         [RxjsPage; DashboardRx (Some "abbb00fa-f7c9-4162-9c88-4a1ab1af1998");
          LifecyclePage;
          DashboardSignals (Some "abbb00fa-f7c9-4162-9c88-4a1ab1af1998")] /\
  Forall (fun impl => transitions impl evs (boot impl) = without_resize)
         [CssPage; AfterNextRenderPage].
Proof.
  apply (lifecycle_sequence (Some "abbb00fa-f7c9-4162-9c88-4a1ab1af1998")
           "tok123" iframeElement [] (rect 800 600) 100
           [ResizeNotify [rect 640 480]; Elapse 250; Render; Destroy]).
  - reflexivity.
  - reflexivity.
  - vm_compute. discriminate.
  - repeat constructor.
Defined.

(** C1, as stated, fails: not every implementation passes through
    [resize]. *)
Lemma resize_step_is_not_in_every_implementation :
  ~ Forall (fun impl =>
              transitions impl
                (first_paint "tok123" [iframeElement] (rect 800 600) 100) (boot impl)
              = with_resize)
           (implementations (Some "abbb00fa-f7c9-4162-9c88-4a1ab1af1998")).
Proof.
  intros H. do 5 apply List.Forall_inv_tail in H.
  apply List.Forall_inv in H. vm_compute in H. discriminate H.
Qed.

(** ** Which element a resize application writes (C9) *)

Ltac cached_tac :=
  unfold new_writes, run, Rx_cached, Sig_cached;
  cbn [fold_left handle Rx_component Sig_component];
  step_cases; rewrite ?drop_all, ?drop_app_length;
  try solve [cbn; intuition (try discriminate; try congruence)];
  try solve [cbn; split;
             [ intros ? ? [[= <- <-]|[]]; congruence
             | intros; congruence ]].

Lemma Rx_writes_to_cached_handle ngAfterViewInit init :
  writes_to_cached_handle (Rx_component ngAfterViewInit init) Rx_cached.
Proof.
  intros w e He. destruct w as [sg dm o [id st stopped]].
  destruct e; try discriminate; cached_tac.
Qed.

(** The effect writes to [iframeEl] and leaves it alone. *)
Lemma Sig_effect_writes (w : Sig.W) :
  Sig.iframeEl (self (Sig.effect w)) = Sig.iframeEl (self w) /\
  exists l, writes (io (Sig.effect w)) = writes (io w) ++ l /\
            forall i r, In (i, r) l -> Sig.iframeEl (self w) = Some i.
Proof.
  unfold Sig.effect.
  destruct (Sig.iframeEl (self w)) as [el|] eqn:Hel;
    [destruct (Sig.iframeSize (self w)) as [size|] |];
    cbn; rewrite ?Hel; (split; [reflexivity|]).
  - exists [(el, size)]. split; [reflexivity|].
    intros i r [[= <- <-]|[]]. reflexivity.
  - exists []. rewrite app_nil_r. split; [reflexivity | intros i r []].
  - exists []. rewrite app_nil_r. split; [reflexivity | intros i r []].
Qed.

Lemma Sig_render_writes initDashboard (w : Sig.W) :
  (forall v, writes (io (initDashboard v)) = writes (io v) /\
             Sig.iframeEl (self (initDashboard v)) = Sig.iframeEl (self v)) ->
  Sig.iframeEl (self (Sig.render initDashboard w)) = Sig.iframeEl (self w) /\
  exists l, writes (io (Sig.render initDashboard w)) = writes (io w) ++ l /\
            forall i r, In (i, r) l -> Sig.iframeEl (self w) = Some i.
Proof.
  intros Hinit. unfold Sig.render.
  destruct (Sig.destroyed (self w)).
  { split; [reflexivity|]. exists []. rewrite app_nil_r.
    split; [reflexivity | intros i r []]. }
  set (w1 := Sig.afterNextRender_hook initDashboard w).
  assert (H1 : writes (io w1) = writes (io w) /\
               Sig.iframeEl (self w1) = Sig.iframeEl (self w)).
  { subst w1. unfold Sig.afterNextRender_hook.
    destruct (Sig.renderPending (self w)); [|auto].
    destruct (Hinit (Sig.set_renderPending false w)) as (-> & ->). auto. }
  destruct H1 as (Hw1 & Hel1).
  unfold Sig.afterRenderEffect_hook.
  destruct (Sig.effectDirty (self w1)).
  - destruct (Sig_effect_writes w1) as (Hel & l & Hl & Hin).
    split; [transitivity (Sig.iframeEl (self w1)); [exact Hel | exact Hel1] |].
    exists l. split.
    + transitivity (writes (io w1) ++ l); [exact Hl | rewrite Hw1; reflexivity].
    + intros i r Hi. rewrite <- Hel1. eauto.
  - split; [assumption|]. exists []. rewrite app_nil_r.
    split; [assumption | intros i r []].
Qed.

Lemma Sig_writes_to_cached_handle initDashboard logsToken init :
  (forall v, writes (io (initDashboard v)) = writes (io v) /\
             Sig.iframeEl (self (initDashboard v)) = Sig.iframeEl (self v)) ->
  writes_to_cached_handle (Sig_component initDashboard logsToken init) Sig_cached.
Proof.
  intros Hinit w e He.
  destruct e; try discriminate;
    try (destruct w as [sg dm o [id sz dirty el ro a rp dd]]; cached_tac; fail).
  destruct (Sig_render_writes initDashboard w Hinit) as (Hel & l & Hl & Hin).
  split.
  - change (new_writes (Sig_component initDashboard logsToken init) [Render] w)
      with (drop (length (writes (io w)))
                 (writes (io (Sig.render initDashboard w)))).
    rewrite Hl, drop_app_length. exact Hin.
  - intros i Hi _. unfold Sig_cached. rewrite <- Hel. exact Hi.
Qed.

Lemma Sig_page_writes_to_cached_handle :
  writes_to_cached_handle LifecyclePage Sig_cached.
Proof.
  apply Sig_writes_to_cached_handle. intros v. split; reflexivity.
Qed.

Lemma Sig_dashboard_writes_to_cached_handle id :
  writes_to_cached_handle (DashboardSignals id) Sig_cached.
Proof.
  apply Sig_writes_to_cached_handle. intros v.
  unfold DashboardComponentSignals.initDashboard.
  destruct (falsy _); split; reflexivity.
Qed.

(** C9, as the code has it. In the RxJS and the signals components every
    width/height write goes to the iframe handle obtained when the embed call
    resolved; the mount target is not queried again. *)
Theorem resize_writes_to_cached_handle (id : option string) :
  writes_to_cached_handle RxjsPage Rx_cached /\
  writes_to_cached_handle (DashboardRx id) Rx_cached /\
  writes_to_cached_handle LifecyclePage Sig_cached /\
  writes_to_cached_handle (DashboardSignals id) Sig_cached.
Proof.
  split; [| split; [| split]].
  - apply Rx_writes_to_cached_handle.
  - apply Rx_writes_to_cached_handle.
  - apply Sig_page_writes_to_cached_handle.
  - apply Sig_dashboard_writes_to_cached_handle.
Qed.

Lemma resize_writes_to_cached_handle_witness :
  Rx_cached (run RxjsPage [ResizeNotify [rect 1024 768]] Rx_painted) = Some 0%nat.
Proof.
  destruct (resize_writes_to_cached_handle None) as (Hrx & _).
  destruct (Hrx (run RxjsPage [ResizeNotify [rect 1024 768]] Rx_painted)
                (Elapse 100) eq_refl) as (Hwrites & _).
  apply (Hwrites 0%nat (rect 1024 768)). left. reflexivity.
Defined.

(** C9, as stated, fails: after the SDK replaced the iframe, a resize is
    applied to the detached element (handle 0) although a query of the mount
    target yields the replacement (handle 1), which stays unsized. *)
Lemma replaced_iframe_is_not_resized :
  let w := run RxjsPage replaced (boot RxjsPage) in
  let w' := run RxjsPage [ResizeNotify [rect 800 600]; Elapse 100] w in
  let v := run LifecyclePage replaced (boot LifecyclePage) in
  let v' := run LifecyclePage [ResizeNotify [rect 800 600]; Render] v in
  (querySelector_iframe w = Some 1%nat /\
   new_writes RxjsPage [ResizeNotify [rect 800 600]; Elapse 100] w
     = [(0%nat, rect 800 600)] /\
   querySelector_iframe w' = Some 1%nat /\
   heap (document w') !! 1%nat = Some iframeElement) /\
  (querySelector_iframe v = Some 1%nat /\
   new_writes LifecyclePage [ResizeNotify [rect 800 600]; Render] v
     = [(0%nat, rect 800 600)] /\
   querySelector_iframe v' = Some 1%nat /\
   heap (document v') !! 1%nat = Some iframeElement).
Proof. cbv zeta. repeat split. Qed.

(** ** Teardown while the credential request is in flight (C2) *)


(** After a teardown no component writes a size any more. *)
Section Silent.
Variable impl : Implementation.
Variable silent : World (priv impl) -> Prop.
Hypothesis silent_step : forall e w,
  silent w -> init_hook e = false ->
  silent (handle impl e w) /\ writes (io (handle impl e w)) = writes (io w).

End Silent.













(** The signals components cancel nothing either: [onDestroy] disconnects the
    observer and clears the mount target, but the [async initDashboard()]
    call goes on.  When the token arrives after the teardown,
    [embedDashboard] is called, and when that call resolves a new
    [ResizeObserver] is connected which nothing disconnects any more; the
    render hooks are gone, so no size is written. *)
Lemma late_token_after_teardown_still_embeds :
  let w := run LifecyclePage (activate ++ [Destroy]) (boot LifecyclePage) in
  let w1 := handle LifecyclePage (TokenResponse (HttpBody (Some "tok123"))) w in
  let w2 := handle LifecyclePage (EmbedResolved [iframeElement]) w1 in
  let w3 := run LifecyclePage [ResizeNotify [rect 800 600]; Render] w2 in
  (embeds (io w) = [] /\ observerConnected LifecyclePage w = false) /\
  embeds (io w1) = [LifecycleDashboardComponent.dashboardId] /\
  currentStep (signals w1) = embed /\
  (observerConnected LifecyclePage w2 = true /\ mount (document w2) = [0%nat]) /\
  writes (io w3) = [].
Proof. cbv zeta. repeat split. Qed.

(** * Further properties of the components *)

(** ** What holds at every suspension point *)

Lemma advances_refl {P} (w : World P) : advances w w.
Proof. unfold advances. lia. Qed.

Lemma advances_trans {P} (w1 w2 w3 : World P) :
  advances w1 w2 -> advances w2 w3 -> advances w1 w3.
Proof. unfold advances. lia. Qed.

Lemma advances_same {P} (w w' : World P) :
  currentStep (signals w') = currentStep (signals w) -> advances w w'.
Proof. unfold advances. intros ->. lia. Qed.

(** A predicate that holds after activation and is kept by every later
    event holds throughout the life of the component; if no event moves the
    step backwards, no run does. *)
Section Reachable.
Variable impl : Implementation.
Variable inv : World (priv impl) -> Prop.
Hypothesis inv_activated : inv (run impl activate (boot impl)).
Hypothesis inv_step : forall e w,
  init_hook e = false -> inv w ->
  inv (handle impl e w) /\ advances w (handle impl e w).

Lemma inv_run tail w :
  Forall (fun e => init_hook e = false) tail ->
  inv w -> inv (run impl tail w) /\ advances w (run impl tail w).
Proof.
  intros Htail. revert w.
  induction Htail as [|e tail He _ IH]; intros w Hw.
  - split; [exact Hw | apply advances_refl].
  - destruct (inv_step e w He Hw) as (H1 & H2).
    destruct (IH _ H1) as (H3 & H4). rewrite run_cons.
    split; [exact H3 | exact (advances_trans _ _ _ H2 H4)].
Qed.

Lemma reachable_inv tail :
  Forall (fun e => init_hook e = false) tail ->
  inv (run impl (activate ++ tail) (boot impl)).
Proof.
  intros Htail. rewrite run_app. apply inv_run; assumption.
Qed.

Lemma reachable_advances mid tail :
  Forall (fun e => init_hook e = false) mid ->
  Forall (fun e => init_hook e = false) tail ->
  advances (run impl (activate ++ mid) (boot impl))
           (run impl (activate ++ mid ++ tail) (boot impl)).
Proof.
  intros Hmid Htail. rewrite app_assoc, (run_app impl (activate ++ mid)).
  apply inv_run; [assumption | apply reachable_inv; assumption].
Qed.
End Reachable.

Ltac inv_tac :=
  step_cases; unfold ordered_logs in *; cbn in *;
  rewrite ?length_app in *; cbn in *;
  intuition (simplify_eq /=; try discriminate; try congruence; try lia; auto).

Lemma Rx_inv_step ngAfterViewInit e (w : Rx.W) :
  init_hook e = false -> Rx_inv w ->
  Rx_inv (Rx.handle ngAfterViewInit e w) /\
  advances w (Rx.handle ngAfterViewInit e w).
Proof.
  unfold Rx_inv, advances.
  destruct w as [[ld er msg st] dm [rq em fl wr] [id sg stopped]].
  destruct e; try discriminate; intros _; cbn; destruct sg; inv_tac.
Qed.

Ltac inv_solve :=
  unfold ordered_logs in *; cbn in *; rewrite ?length_app; cbn;
  intuition (simplify_eq /=; try discriminate; try congruence; try lia; auto).

Lemma Sig_inv_catch_block (w : Sig.W) :
  ordered_logs w -> writes (io w) = [] -> Sig.iframeEl (self w) = None ->
  Sig.renderPending (self w) = false ->
  Sig_inv (Sig.catch_block w).
Proof.
  destruct w as [[ld er msg st] dm [rq em fl wr] [id sz dirty el ro a rp dd]].
  unfold Sig_inv. cbn. intros Ho -> -> ->. inv_solve.
Qed.

Lemma Sig_inv_afterToken logsToken r (w : Sig.W) :
  Sig_inv w -> Sig_inv (Sig.afterToken logsToken r w).
Proof.
  unfold Sig.afterToken.
  destruct (Sig.async (self w)) as [| id | |] eqn:Ha; try (intros H; exact H).
  intros H. unfold Sig_inv in H. rewrite Ha in H.
  destruct H as (Hr & He & Hw & Hs & Herr & Hel & Hrp).
  assert (Hcatch : Sig_inv (Sig.catch_block w)).
  { apply Sig_inv_catch_block; try assumption.
    unfold ordered_logs. rewrite Hr, He, Hw. cbn. intuition (try congruence; lia). }
  destruct (SupersetService.getGuestToken r) as [cause | guestToken];
    [exact Hcatch |].
  destruct (logsToken && bool_decide (guestToken = None)); [exact Hcatch |].
  destruct w as [[ld er msg st] dm [rq em fl wr] [id' sz dirty el ro a rp dd]].
  unfold Sig_inv. cbn in *. subst. cbn. repeat split; reflexivity.
Qed.

Lemma Sig_inv_frame (w w' : Sig.W) :
  Sig.async (self w') = Sig.async (self w) ->
  io w' = io w -> signals w' = signals w ->
  Sig.iframeEl (self w') = Sig.iframeEl (self w) ->
  Sig.renderPending (self w') = Sig.renderPending (self w) ->
  Sig_inv w -> Sig_inv w'.
Proof.
  unfold Sig_inv, ordered_logs. intros -> -> -> -> -> H. exact H.
Qed.

(** What the environment does to the [embedInFlight] flag and to the
    document is of no concern to the invariant. *)
Lemma Sig_inv_sdk_resolves els (w : Sig.W) :
  Sig_inv w -> Sig_inv (Sig.sdk_resolves els w).
Proof.
  destruct w as [[ld er msg st] dm [rq em fl wr] [id sz dirty el ro a rp dd]].
  unfold Sig_inv, ordered_logs. cbn. auto.
Qed.

Lemma Sig_inv_embed_settled (w : Sig.W) :
  Sig_inv w -> Sig_inv (embed_settled w).
Proof.
  destruct w as [[ld er msg st] dm [rq em fl wr] [id sz dirty el ro a rp dd]].
  unfold Sig_inv, ordered_logs. cbn. auto.
Qed.

Lemma Sig_inv_afterEmbed (w : Sig.W) :
  Sig_inv w -> Sig_inv (Sig.afterEmbed w).
Proof.
  unfold Sig.afterEmbed.
  destruct (Sig.async (self w)) eqn:Ha; try (intros H; exact H).
  intros H. unfold Sig_inv in H. rewrite Ha in H.
  destruct H as (Hr & He & Hw & Hs & Herr & Hel & Hrp).
  generalize (querySelector_iframe w). intros q.
  destruct w as [[ld er msg st] dm [rq em fl wr] [id' sz dirty el ro a rp dd]].
  unfold Sig_inv. cbn in *. subst. inv_solve.
Qed.

Lemma Sig_inv_embedThrows (w : Sig.W) :
  Sig_inv w -> Sig_inv (Sig.embedThrows w).
Proof.
  unfold Sig.embedThrows.
  destruct (Sig.async (self w)) eqn:Ha; try (intros H; exact H).
  intros H. unfold Sig_inv in H. rewrite Ha in H.
  destruct H as (Hr & He & Hw & Hs & Herr & Hel & Hrp).
  apply Sig_inv_catch_block; try assumption.
  unfold ordered_logs. rewrite Hw. intuition (try congruence; try lia).
  destruct (requests (io w)); [discriminate | congruence].
Qed.

Lemma Sig_inv_effect_hook (w : Sig.W) :
  Sig_inv w -> Sig_inv (Sig.afterRenderEffect_hook w).
Proof.
  unfold Sig.afterRenderEffect_hook, Sig.effect.
  destruct w as [[ld er msg st] dm [rq em fl wr] [id sz dirty el ro a rp dd]].
  cbn. destruct dirty; [| intros H; exact H].
  destruct el as [i|]; [destruct sz as [size|] |];
    unfold Sig_inv; cbn; destruct a; inv_solve.
Qed.

Lemma Sig_inv_try_start id (w : Sig.W) :
  Sig_inv w -> Sig.async (self w) = Sig.NotStarted ->
  Sig_inv (Sig.try_start id (Sig.set_renderPending false w)).
Proof.
  destruct w as [[ld er msg st] dm [rq em fl wr] [id' sz dirty el ro a rp dd]].
  unfold Sig_inv. cbn. intros H ->. cbn in H. inv_solve.
Qed.

Lemma Sig_inv_guard (w : Sig.W) :
  Sig_inv w -> Sig.async (self w) = Sig.NotStarted ->
  Sig_inv (Sig.set_renderPending false w
             |> set_hasError true |> set_errorMessage missingIdMessage
             |> set_isLoading false |> Sig.set_async Sig.Returned).
Proof.
  destruct w as [[ld er msg st] dm [rq em fl wr] [id' sz dirty el ro a rp dd]].
  unfold Sig_inv. cbn. intros H ->. cbn in H. inv_solve.
Qed.

Lemma Sig_inv_render initDashboard (w : Sig.W) :
  Sig_init_ok initDashboard ->
  Sig_inv w -> Sig_inv (Sig.render initDashboard w).
Proof.
  intros Hinit H. unfold Sig.render.
  destruct (Sig.destroyed (self w)); [exact H |].
  apply Sig_inv_effect_hook. unfold Sig.afterNextRender_hook.
  destruct (Sig.renderPending (self w)) eqn:Hrp; [| exact H].
  apply Hinit; [exact H |].
  unfold Sig_inv in H. destruct (Sig.async (self w)); try reflexivity;
    exfalso; intuition congruence.
Qed.

Lemma Sig_inv_step initDashboard logsToken e (w : Sig.W) :
  Sig_init_ok initDashboard ->
  init_hook e = false -> Sig_inv w ->
  Sig_inv (Sig.handle initDashboard logsToken e w).
Proof.
  intros Hinit He H. destruct e; try discriminate; cbn.
  - apply Sig_inv_render; assumption.
  - apply Sig_inv_afterToken, H.
  - destruct (embedInFlight (io w)); [| exact H].
    apply Sig_inv_afterEmbed, Sig_inv_sdk_resolves, H.
  - destruct (embedInFlight (io w)); [| exact H].
    apply Sig_inv_embedThrows, Sig_inv_embed_settled, H.
  - revert H. apply Sig_inv_frame; reflexivity.
  - unfold Sig.onResize. destruct (Sig.resizeObserver (self w)); [| exact H].
    destruct entries; [exact H |]. revert H. apply Sig_inv_frame; reflexivity.
  - exact H.
  - revert H. apply Sig_inv_frame; reflexivity.
Qed.

Lemma Sig_page_init_ok : Sig_init_ok LifecycleDashboardComponent.initDashboard.
Proof. intros w H Ha. apply Sig_inv_try_start; assumption. Qed.

Lemma Sig_dashboard_init_ok : Sig_init_ok DashboardComponentSignals.initDashboard.
Proof.
  intros w H Ha. unfold DashboardComponentSignals.initDashboard.
  destruct (falsy _).
  - apply Sig_inv_guard; assumption.
  - apply Sig_inv_try_start; assumption.
Qed.

Lemma Css_inv_step e (w : Css.W) :
  init_hook e = false -> Css_inv w ->
  Css_inv (Css.handle e w) /\ advances w (Css.handle e w).
Proof.
  unfold Css_inv, advances.
  destruct w as [[ld er msg st] dm [rq em fl wr] [sg]].
  destruct e; try discriminate; intros _; cbn; destruct sg; inv_tac.
Qed.

Lemma Anr_inv_step e (w : Anr.W) :
  init_hook e = false -> Anr_inv w ->
  Anr_inv (Anr.handle e w) /\ advances w (Anr.handle e w).
Proof.
  unfold Anr_inv, advances.
  destruct w as [[ld er msg st] dm [rq em fl wr] [ts pp stopped]].
  destruct e; try discriminate; intros _; cbn; destruct ts, pp; inv_tac.
Qed.

Lemma Sig_effect_hook_advances (w : Sig.W) :
  advances w (Sig.afterRenderEffect_hook w).
Proof.
  unfold Sig.afterRenderEffect_hook, Sig.effect, advances.
  destruct (Sig.effectDirty (self w)); [| lia].
  destruct (Sig.iframeEl (self w)); [destruct (Sig.iframeSize (self w)) |];
    cbn; try lia.
  destruct (currentStep (signals w)); cbn; lia.
Qed.

Lemma Sig_afterToken_advances logsToken r (w : Sig.W) :
  Sig_inv w -> advances w (Sig.afterToken logsToken r w).
Proof.
  unfold Sig.afterToken.
  destruct (Sig.async (self w)) as [| id | |] eqn:Ha;
    try (intros _; apply advances_refl).
  intros H. unfold Sig_inv in H. rewrite Ha in H.
  destruct H as (_ & _ & _ & Hs & _).
  destruct (SupersetService.getGuestToken r) as [cause | guestToken];
    [apply advances_same; reflexivity |].
  destruct (logsToken && bool_decide (guestToken = None));
    [apply advances_same; reflexivity |].
  unfold advances. cbn. rewrite Hs. cbn. lia.
Qed.

Lemma Sig_afterEmbed_advances (w : Sig.W) :
  Sig_inv w -> advances w (Sig.afterEmbed w).
Proof.
  unfold Sig.afterEmbed.
  destruct (Sig.async (self w)) eqn:Ha; try (intros _; apply advances_refl).
  intros H. unfold Sig_inv in H. rewrite Ha in H.
  destruct H as (_ & _ & _ & Hs & _).
  unfold advances. cbn. rewrite Hs. cbn. lia.
Qed.

Lemma Sig_embedThrows_advances (w : Sig.W) : advances w (Sig.embedThrows w).
Proof.
  unfold Sig.embedThrows. destruct (Sig.async (self w));
    apply advances_same; reflexivity.
Qed.

Lemma Sig_advances_step initDashboard logsToken e (w : Sig.W) :
  (forall v, Sig_inv v -> Sig.async (self v) = Sig.NotStarted ->
             advances v (initDashboard (Sig.set_renderPending false v))) ->
  init_hook e = false -> Sig_inv w ->
  advances w (Sig.handle initDashboard logsToken e w).
Proof.
  intros Hinit He H. destruct e; try discriminate; cbn.
  - unfold Sig.render. destruct (Sig.destroyed (self w)); [apply advances_refl |].
    eapply advances_trans; [| apply Sig_effect_hook_advances].
    unfold Sig.afterNextRender_hook.
    destruct (Sig.renderPending (self w)) eqn:Hrp; [| apply advances_refl].
    apply Hinit; [exact H |].
    unfold Sig_inv in H. destruct (Sig.async (self w)); try reflexivity;
      exfalso; intuition congruence.
  - apply Sig_afterToken_advances, H.
  - destruct (embedInFlight (io w)); [| apply advances_refl].
    eapply advances_trans;
      [| apply Sig_afterEmbed_advances, Sig_inv_sdk_resolves, H].
    apply advances_same. reflexivity.
  - destruct (embedInFlight (io w)); [| apply advances_refl].
    eapply advances_trans; [| apply Sig_embedThrows_advances].
    apply advances_same. reflexivity.
  - apply advances_same. reflexivity.
  - unfold Sig.onResize. destruct (Sig.resizeObserver (self w));
      [destruct entries |]; apply advances_same; reflexivity.
  - apply advances_refl.
  - apply advances_same. reflexivity.
Qed.

Lemma Sig_try_start_advances id (w : Sig.W) :
  Sig_inv w -> Sig.async (self w) = Sig.NotStarted ->
  advances w (Sig.try_start id (Sig.set_renderPending false w)).
Proof.
  unfold Sig_inv, advances. intros H Ha. rewrite Ha in H.
  destruct H as (_ & _ & _ & Hs & _). cbn. rewrite Hs. cbn. lia.
Qed.

Lemma Sig_page_step e (w : Sig.W) :
  init_hook e = false -> Sig_inv w ->
  Sig_inv (handle LifecyclePage e w) /\ advances w (handle LifecyclePage e w).
Proof.
  intros He H. split.
  - apply Sig_inv_step; auto using Sig_page_init_ok.
  - apply Sig_advances_step; auto. intros v Hv Ha.
    apply Sig_try_start_advances; assumption.
Qed.

Lemma Sig_dashboard_step id e (w : Sig.W) :
  init_hook e = false -> Sig_inv w ->
  Sig_inv (handle (DashboardSignals id) e w) /\
  advances w (handle (DashboardSignals id) e w).
Proof.
  intros He H. split.
  - apply Sig_inv_step; auto using Sig_dashboard_init_ok.
  - apply Sig_advances_step; auto. intros v Hv Ha.
    unfold DashboardComponentSignals.initDashboard. destruct (falsy _).
    + apply advances_same. reflexivity.
    + apply Sig_try_start_advances; assumption.
Qed.

(** ** The invariants after activation *)

Lemma Rx_page_inv_activated : Rx_inv (run RxjsPage activate (boot RxjsPage)).
Proof. unfold Rx_inv. cbn. repeat split. Qed.

Lemma Rx_dashboard_inv_activated id :
  Rx_inv (run (DashboardRx id) activate (boot (DashboardRx id))).
Proof.
  unfold Rx_inv. cbn. unfold DashboardComponentRx.ngAfterViewInit. cbn.
  destruct (falsy id); cbn; repeat split.
Qed.

Lemma Sig_page_inv_activated :
  Sig_inv (run LifecyclePage activate (boot LifecyclePage)).
Proof. unfold Sig_inv. cbn. repeat split. Qed.

Lemma Sig_dashboard_inv_activated id :
  Sig_inv (run (DashboardSignals id) activate (boot (DashboardSignals id))).
Proof.
  unfold Sig_inv. cbn. unfold Sig.render, Sig.afterNextRender_hook. cbn.
  unfold DashboardComponentSignals.initDashboard. cbn.
  destruct (falsy id); cbn; unfold ordered_logs; cbn;
    intuition (try congruence; try lia).
Qed.

Lemma Css_inv_activated : Css_inv (run CssPage activate (boot CssPage)).
Proof. unfold Css_inv. cbn. repeat split. Qed.

Lemma Anr_inv_activated :
  Anr_inv (run AfterNextRenderPage activate (boot AfterNextRenderPage)).
Proof.
  unfold Anr_inv, ordered_logs. cbn.
  intuition (try discriminate; try congruence; try lia).
Qed.

(** ** What the invariants give *)





Lemma Rx_inv_error_parked (w : Rx.W) :
  Rx_inv w -> hasError (signals w) = true -> Rx_parked w.
Proof.
  unfold Rx_inv, Rx_parked. destruct (Rx.stage (self w)); auto;
    intros H He; exfalso; intuition congruence.
Qed.

Lemma Sig_inv_error_parked (w : Sig.W) :
  Sig_inv w -> hasError (signals w) = true -> Sig_parked w.
Proof.
  unfold Sig_inv, Sig_parked. destruct (Sig.async (self w));
    intros H He; try (exfalso; intuition congruence).
  destruct H as (_ & Hrp & _ & Hel).
  repeat split; [| exact Hrp].
  destruct (Sig.iframeEl (self w)) as [i|]; [| reflexivity].
  exfalso. destruct Hel as (Hf & _); [discriminate | congruence].
Qed.

Lemma Css_inv_error_parked (w : Css.W) :
  Css_inv w -> hasError (signals w) = true -> Css_parked w.
Proof.
  unfold Css_inv, Css_parked. intros (_ & H) He.
  destruct (Css.stage (self w)); try reflexivity; exfalso; intuition congruence.
Qed.

Lemma Anr_inv_error_parked (w : Anr.W) :
  Anr_inv w -> hasError (signals w) = true -> Anr_parked w.
Proof.
  unfold Anr_inv, Anr_parked. intros (_ & _ & Ht & Hp) He. split.
  - destruct (Anr.tokenSub (self w)); [| reflexivity].
    exfalso. destruct Ht as (_ & Hf & _); [reflexivity | congruence].
  - intros Hpe. destruct (Hp Hpe) as (_ & Hf & _). congruence.
Qed.

(** Every component with its invariant. *)
Ltac with_invariant tac :=
  each_implementation;
  [ tac RxjsPage Rx_inv Rx_page_inv_activated
        (Rx_inv_step RxjsDashboardComponent.ngAfterViewInit)
  | match goal with
    | |- context [DashboardRx ?id] =>
        tac (DashboardRx id) Rx_inv (Rx_dashboard_inv_activated id)
            (Rx_inv_step DashboardComponentRx.ngAfterViewInit)
    end
  | tac LifecyclePage Sig_inv Sig_page_inv_activated Sig_page_step
  | match goal with
    | |- context [DashboardSignals ?id] =>
        tac (DashboardSignals id) Sig_inv (Sig_dashboard_inv_activated id)
            (Sig_dashboard_step id)
    end
  | tac CssPage Css_inv Css_inv_activated Css_inv_step
  | tac AfterNextRenderPage Anr_inv Anr_inv_activated Anr_inv_step ].

(** ** The step only moves forward *)

(** X1. In every implementation, from activation on, [currentStep] never
    moves backwards in the order idle, token, embed, resize, done, whatever
    the sequence of responses, notifications, renders and teardowns. *)
Theorem step_never_moves_back (id : option string) (mid tail : list Event) :
  Forall (fun e => init_hook e = false) mid ->
  Forall (fun e => init_hook e = false) tail ->
  Forall (fun impl =>
            advances (run impl (activate ++ mid) (boot impl))
                     (run impl (activate ++ mid ++ tail) (boot impl)))
         (implementations id).
Proof.
  intros Hmid Htail.
  with_invariant ltac:(fun impl inv Hact Hstep =>
    exact (reachable_advances impl inv Hact Hstep mid tail Hmid Htail)).
Qed.

Lemma step_never_moves_back_witness :
  Forall (fun impl =>
            advances (run impl (activate ++ [TokenResponse (HttpBody (Some "tok123"))])
                          (boot impl))
                     (run impl (activate ++ [TokenResponse (HttpBody (Some "tok123"))]
                                  ++ [EmbedRejected "boom"; Render; Destroy])
                          (boot impl)))
         (implementations (Some "abbb00fa-f7c9-4162-9c88-4a1ab1af1998")).
Proof.
  apply (step_never_moves_back (Some "abbb00fa-f7c9-4162-9c88-4a1ab1af1998")
           [TokenResponse (HttpBody (Some "tok123"))]
           [EmbedRejected "boom"; Render; Destroy]);
    repeat constructor.
Defined.

(** ** One request, one embed call, in this order *)



(** ** The error state is final *)

(** X3. In every implementation, once [hasError] is set, nothing that
    happens later changes a signal, issues a request, calls
    [embedDashboard] or writes a size: there is no retry. *)
Theorem error_is_final (id : option string) (mid tail : list Event) :
  Forall (fun e => init_hook e = false) mid ->
  Forall (fun e => init_hook e = false) tail ->
  Forall (fun impl =>
            let w := run impl (activate ++ mid) (boot impl) in
            hasError (signals w) = true ->
            signals (run impl tail w) = signals w /\
            logs (run impl tail w) = logs w)
         (implementations id).
Proof.
  intros Hmid Htail.
  with_invariant ltac:(fun impl inv Hact Hstep =>
    cbv zeta; intros Herr;
    pose proof (reachable_inv impl inv Hact Hstep mid Hmid) as H;
    first
      [ pose proof (Rx_inv_error_parked _ H Herr) as Hp;
        destruct (parked_run impl Rx_parked (Rx_parked_step _) tail _ Hp Htail)
          as (_ & Hs & Hl & _)
      | pose proof (Sig_inv_error_parked _ H Herr) as Hp;
        destruct (parked_run impl Sig_parked (Sig_parked_step _ _) tail _ Hp Htail)
          as (_ & Hs & Hl & _)
      | pose proof (Css_inv_error_parked _ H Herr) as Hp;
        destruct (parked_run impl Css_parked Css_parked_step tail _ Hp Htail)
          as (_ & Hs & Hl & _)
      | pose proof (Anr_inv_error_parked _ H Herr) as Hp;
        destruct (parked_run impl Anr_parked Anr_parked_step tail _ Hp Htail)
          as (_ & Hs & Hl & _) ];
    split; assumption).
Qed.

Lemma error_is_final_witness :
  Forall (fun impl =>
            let w := run impl (activate ++ [TokenResponse (HttpBody (Some "tok123"));
                                            EmbedRejected "boom"])
                         (boot impl) in
            hasError (signals w) = true /\
            signals (run impl [TokenResponse (HttpBody (Some "tok123"));
                               EmbedResolved [iframeElement];
                               ResizeNotify [rect 800 600]; Elapse 100; Render] w)
              = signals w /\
            logs (run impl [TokenResponse (HttpBody (Some "tok123"));
                            EmbedResolved [iframeElement];
                            ResizeNotify [rect 800 600]; Elapse 100; Render] w)
              = logs w)
         (implementations (Some "abbb00fa-f7c9-4162-9c88-4a1ab1af1998")).
Proof.
  assert (Herr : Forall (fun impl =>
            hasError (signals (run impl
              (activate ++ [TokenResponse (HttpBody (Some "tok123"));
                            EmbedRejected "boom"]) (boot impl))) = true)
            (implementations (Some "abbb00fa-f7c9-4162-9c88-4a1ab1af1998")))
    by (each_implementation; reflexivity).
  eapply List.Forall_impl;
    [| apply Forall_and; split;
       [ exact Herr
       | apply (error_is_final (Some "abbb00fa-f7c9-4162-9c88-4a1ab1af1998")
                  [TokenResponse (HttpBody (Some "tok123")); EmbedRejected "boom"]
                  [TokenResponse (HttpBody (Some "tok123"));
                   EmbedResolved [iframeElement];
                   ResizeNotify [rect 800 600]; Elapse 100; Render]);
         repeat constructor ] ].
  cbv beta zeta. intros impl (He & H). split; [exact He | exact (H He)].
Defined.

(** ** The loading indicator *)

Lemma Rx_loading_step ngAfterViewInit e (w : Rx.W) :
  init_hook e = false -> isLoading (signals w) = false ->
  isLoading (signals (Rx.handle ngAfterViewInit e w)) = false.
Proof.
  destruct w as [[ld er msg st] dm o [id sg stopped]]. cbn. intros He ->.
  destruct e; try discriminate; step_cases; reflexivity.
Qed.

Lemma Sig_loading_step initDashboard logsToken e (w : Sig.W) :
  (forall v, isLoading (signals v) = false ->
             isLoading (signals (initDashboard v)) = false) ->
  init_hook e = false -> isLoading (signals w) = false ->
  isLoading (signals (Sig.handle initDashboard logsToken e w)) = false.
Proof.
  intros Hinit He Hl. destruct e; try discriminate; cbn.
  - unfold Sig.render, Sig.afterRenderEffect_hook, Sig.effect,
      Sig.afterNextRender_hook.
    destruct (Sig.destroyed (self w)); [exact Hl |].
    set (w1 := if Sig.renderPending (self w) then _ else w).
    assert (H1 : isLoading (signals w1) = false).
    { subst w1. destruct (Sig.renderPending (self w)); [| exact Hl].
      apply Hinit. exact Hl. }
    destruct (Sig.effectDirty (self w1)); [| exact H1].
    destruct (Sig.iframeEl (self w1)); [destruct (Sig.iframeSize (self w1)) |];
      exact H1.
  - unfold Sig.afterToken. destruct (Sig.async (self w)); try exact Hl.
    destruct (SupersetService.getGuestToken r); [reflexivity |].
    destruct (logsToken && _); [reflexivity | exact Hl].
  - destruct (embedInFlight (io w)); [| exact Hl].
    unfold Sig.afterEmbed. cbn. destruct (Sig.async (self w)); try exact Hl.
    reflexivity.
  - destruct (embedInFlight (io w)); [| exact Hl].
    unfold Sig.embedThrows. cbn. destruct (Sig.async (self w)); try exact Hl.
    reflexivity.
  - exact Hl.
  - unfold Sig.onResize. destruct (Sig.resizeObserver (self w));
      [destruct entries |]; exact Hl.
  - exact Hl.
  - exact Hl.
Qed.

Lemma Css_loading_step e (w : Css.W) :
  init_hook e = false -> isLoading (signals w) = false ->
  isLoading (signals (Css.handle e w)) = false.
Proof.
  destruct w as [[ld er msg st] dm o [sg]]. cbn. intros He ->.
  destruct e; try discriminate; step_cases; reflexivity.
Qed.

Lemma Anr_loading_step e (w : Anr.W) :
  init_hook e = false -> isLoading (signals w) = false ->
  isLoading (signals (Anr.handle e w)) = false.
Proof.
  destruct w as [[ld er msg st] dm o [ts pp stopped]]. cbn. intros He ->.
  destruct e; try discriminate; step_cases; reflexivity.
Qed.

(** X4. In every implementation, once [isLoading] is false no later event
    sets it again: only activation raises the loading indicator. *)
Theorem loading_never_returns (id : option string) (tail : list Event) :
  Forall (fun e => init_hook e = false) tail ->
  Forall (fun impl => forall w,
            isLoading (signals w) = false ->
            isLoading (signals (run impl tail w)) = false)
         (implementations id).
Proof.
  intros Htail. each_implementation; intros w Hw.
  - apply (run_invariant_tail RxjsPage (fun w => isLoading (signals w) = false));
      auto. intros; apply Rx_loading_step; assumption.
  - apply (run_invariant_tail (DashboardRx id)
             (fun w => isLoading (signals w) = false)); auto.
    intros; apply Rx_loading_step; assumption.
  - apply (run_invariant_tail LifecyclePage
             (fun w => isLoading (signals w) = false)); auto.
    intros; apply Sig_loading_step; auto.
  - apply (run_invariant_tail (DashboardSignals id)
             (fun w => isLoading (signals w) = false)); auto.
    intros; apply Sig_loading_step; auto.
    intros v Hv. unfold DashboardComponentSignals.initDashboard.
    destruct (falsy _); [reflexivity | exact Hv].
  - apply (run_invariant_tail CssPage (fun w => isLoading (signals w) = false));
      auto. intros; apply Css_loading_step; assumption.
  - apply (run_invariant_tail AfterNextRenderPage
             (fun w => isLoading (signals w) = false)); auto.
    intros; apply Anr_loading_step; assumption.
Qed.

Lemma loading_never_returns_witness :
  Forall (fun impl =>
            isLoading (signals
              (run impl [ResizeNotify [rect 800 600]; Elapse 100; Render; Destroy;
                         TokenResponse (HttpBody (Some "late"))]
                   (run impl (embedded "tok123" [iframeElement]) (boot impl))))
            = false)
         (implementations (Some "abbb00fa-f7c9-4162-9c88-4a1ab1af1998")).
Proof.
  assert (Hl : Forall (fun impl =>
            isLoading (signals (run impl (embedded "tok123" [iframeElement])
                                    (boot impl))) = false)
            (implementations (Some "abbb00fa-f7c9-4162-9c88-4a1ab1af1998")))
    by (each_implementation; reflexivity).
  eapply List.Forall_impl;
    [| apply Forall_and; split;
       [ exact Hl
       | apply (loading_never_returns (Some "abbb00fa-f7c9-4162-9c88-4a1ab1af1998")
                  [ResizeNotify [rect 800 600]; Elapse 100; Render; Destroy;
                   TokenResponse (HttpBody (Some "late"))]);
         repeat constructor ] ].
  cbv beta. intros impl (Hw & H). exact (H _ Hw).
Defined.

(** ** A rejected embed call *)

(** An outcome reached in a parked state is kept for good. *)
Lemma outcome_forever impl (parked : World (priv impl) -> Prop) evs tail seq :
  (forall e w, parked w -> init_hook e = false ->
     parked (handle impl e w) /\ signals (handle impl e w) = signals w /\
     logs (handle impl e w) = logs w) ->
  parked (run impl evs (boot impl)) ->
  transitions impl evs (boot impl) = seq ->
  Forall (fun e => init_hook e = false) tail ->
  transitions impl (evs ++ tail) (boot impl) = seq /\
  signals (run impl (evs ++ tail) (boot impl)) = signals (run impl evs (boot impl)) /\
  logs (run impl (evs ++ tail) (boot impl)) = logs (run impl evs (boot impl)).
Proof.
  intros Hstep Hp Ht Htail.
  destruct (parked_run impl parked Hstep tail _ Hp Htail) as (_ & Hs & Hl & Ht').
  rewrite transitions_app, run_app, Ht, Ht', app_nil_r. auto.
Qed.

Lemma rejected_at_embed_kept {P} (w w' : World P) :
  signals w' = signals w -> logs w' = logs w ->
  rejected_at_embed w -> rejected_at_embed w'.
Proof.
  unfold rejected_at_embed, logs. intros -> Hl. injection Hl as _ -> ->. auto.
Qed.

Ltac fails_at_embed_tac :=
  unfold fails_at_embed, rejected_at_embed, embed_sequence, Rx_parked,
         Sig_parked, Css_parked, Anr_parked;
  repeat match goal with |- _ /\ _ => split end;
  first [reflexivity | discriminate | right; reflexivity | left; reflexivity].

Lemma Rx_page_embed_failure tok cause : fails_at_embed RxjsPage Rx_parked tok cause.
Proof. fails_at_embed_tac. Qed.

Lemma Rx_dashboard_embed_failure id tok cause :
  falsy id = false -> fails_at_embed (DashboardRx id) Rx_parked tok cause.
Proof.
  intros Hid. destruct (Rx_dashboard_activated id Hid) as (Hrun & Ht).
  unfold fails_at_embed, embed_failure.
  rewrite run_app, transitions_app, Hrun, Ht. fails_at_embed_tac.
Qed.

Lemma Sig_page_embed_failure tok cause :
  fails_at_embed LifecyclePage Sig_parked tok cause.
Proof. fails_at_embed_tac. Qed.

Lemma Sig_dashboard_embed_failure id tok cause :
  falsy id = false -> fails_at_embed (DashboardSignals id) Sig_parked tok cause.
Proof.
  intros Hid. destruct (Sig_dashboard_activated id Hid) as (Hrun & Ht).
  unfold fails_at_embed, embed_failure.
  rewrite run_app, transitions_app, Hrun, Ht. fails_at_embed_tac.
Qed.

Lemma Css_embed_failure tok cause : fails_at_embed CssPage Css_parked tok cause.
Proof. fails_at_embed_tac. Qed.

Lemma Anr_embed_failure tok cause :
  fails_at_embed AfterNextRenderPage Anr_parked tok cause.
Proof. fails_at_embed_tac. Qed.

Lemma embed_failure_forever impl parked tok cause tail :
  (forall e w, parked w -> init_hook e = false ->
     parked (handle impl e w) /\ signals (handle impl e w) = signals w /\
     logs (handle impl e w) = logs w) ->
  fails_at_embed impl parked tok cause ->
  Forall (fun e => init_hook e = false) tail ->
  transitions impl (embed_failure tok cause ++ tail) (boot impl) = embed_sequence /\
  rejected_at_embed (run impl (embed_failure tok cause ++ tail) (boot impl)).
Proof.
  intros Hstep (Hp & Hr & Ht) Htail.
  destruct (outcome_forever impl parked _ tail _ Hstep Hp Ht Htail)
    as (Ht' & Hs & Hl).
  split; [exact Ht' | exact (rejected_at_embed_kept _ _ Hs Hl Hr)].
Qed.

(** X5. In every implementation, when the token arrives and the embed call
    rejects, the lifecycle state goes to token, embed and error and changes
    no more; the message is the fixed generic one whatever the cause,
    [isLoading] is false, [embedDashboard] was called exactly once and is not
    called again, and no size is ever written. *)
Theorem embed_rejection_is_generic_error
    (id : option string) (tok cause : string) (tail : list Event) :
  falsy id = false ->
  Forall (fun e => init_hook e = false) tail ->
  Forall (fun impl =>
            transitions impl (embed_failure tok cause ++ tail) (boot impl)
              = embed_sequence /\
            rejected_at_embed (run impl (embed_failure tok cause ++ tail) (boot impl)))
         (implementations id).
Proof.
  intros Hid Htail. each_implementation.
  - apply (embed_failure_forever RxjsPage Rx_parked);
      auto using Rx_page_embed_failure. apply Rx_parked_step.
  - apply (embed_failure_forever (DashboardRx id) Rx_parked);
      auto using Rx_dashboard_embed_failure. apply Rx_parked_step.
  - apply (embed_failure_forever LifecyclePage Sig_parked);
      auto using Sig_page_embed_failure. apply Sig_parked_step.
  - apply (embed_failure_forever (DashboardSignals id) Sig_parked);
      auto using Sig_dashboard_embed_failure. apply Sig_parked_step.
  - apply (embed_failure_forever CssPage Css_parked);
      auto using Css_embed_failure. apply Css_parked_step.
  - apply (embed_failure_forever AfterNextRenderPage Anr_parked);
      auto using Anr_embed_failure. apply Anr_parked_step.
Qed.

Lemma embed_rejection_is_generic_error_witness :
  Forall (fun impl =>
            transitions impl
              (embed_failure "tok123" "iframe blocked" ++
               [EmbedResolved [iframeElement]; ResizeNotify [rect 800 600];
                Elapse 100; Render])
              (boot impl)
              = embed_sequence /\
            rejected_at_embed
              (run impl
                 (embed_failure "tok123" "iframe blocked" ++
                  [EmbedResolved [iframeElement]; ResizeNotify [rect 800 600];
                   Elapse 100; Render])
                 (boot impl)))
         (implementations (Some "abbb00fa-f7c9-4162-9c88-4a1ab1af1998")).
Proof.
  apply (embed_rejection_is_generic_error
           (Some "abbb00fa-f7c9-4162-9c88-4a1ab1af1998") "tok123" "iframe blocked").
  - reflexivity.
  - repeat constructor.
Defined.

(** ** A response without a token *)

(** X6. When the endpoint answers with a body that has no [token] property,
    [getGuestToken] emits [undefined] and five of the components go on to
    call [embedDashboard]; [LifecycleDashboardComponent], which slices the
    token for its log line, throws instead and ends in the error state
    without calling it. *)
Theorem missing_token_property (id : option string) :
  falsy id = false ->
  Forall (fun impl =>
            length (embeds (io (run impl token_missing (boot impl)))) = 1%nat /\
            lifecycle (run impl token_missing (boot impl)) = at_step embed)
         [RxjsPage; DashboardRx id; DashboardSignals id; CssPage;
          AfterNextRenderPage] /\
  (embeds (io (run LifecyclePage token_missing (boot LifecyclePage))) = [] /\
   lifecycle (run LifecyclePage token_missing (boot LifecyclePage)) = error /\
   errorMessage (signals (run LifecyclePage token_missing (boot LifecyclePage)))
     = loadFailedMessage).
Proof.
  intros Hid. split; [| repeat split].
  repeat apply Forall_cons_2; try apply Forall_nil_2; try (split; reflexivity).
  - destruct (Rx_dashboard_activated id Hid) as (Hrun & _).
    unfold token_missing. rewrite run_app, Hrun. split; reflexivity.
  - destruct (Sig_dashboard_activated id Hid) as (Hrun & _).
    unfold token_missing. rewrite run_app, Hrun. split; reflexivity.
Qed.

Lemma missing_token_property_witness :
  length (embeds (io (run (DashboardSignals (Some "abbb00fa-f7c9-4162-9c88-4a1ab1af1998"))
                          token_missing
                          (boot (DashboardSignals
                                   (Some "abbb00fa-f7c9-4162-9c88-4a1ab1af1998"))))))
    = 1%nat /\
  embeds (io (run LifecyclePage token_missing (boot LifecyclePage))) = [].
Proof.
  destruct (missing_token_property (Some "abbb00fa-f7c9-4162-9c88-4a1ab1af1998")
              eq_refl) as (Hall & Hl & _).
  split; [| exact Hl].
  apply List.Forall_inv_tail, List.Forall_inv_tail, List.Forall_inv in Hall.
  exact (proj1 Hall).
Defined.

(** ** Time *)

Lemma Rx_onElapse_idle ms (w : Rx.W) ctx last :
  Rx.stage (self w) = Rx.Observing ctx None last -> Rx.onElapse ms w = w.
Proof. unfold Rx.onElapse. intros ->. reflexivity. Qed.

Lemma Rx_set_stage_twice st st' (w : Rx.W) :
  Rx.set_stage st (Rx.set_stage st' w) = Rx.set_stage st w.
Proof. reflexivity. Qed.

Lemma Rx_elapse_add (a b : N) (w : Rx.W) :
  Rx.onElapse b (Rx.onElapse a w) = Rx.onElapse (a + b) w.
Proof.
  unfold Rx.onElapse at 2 3.
  destruct (Rx.stage (self w)) as [| | | ctx [[r remaining]|] last |] eqn:Hst;
    try (unfold Rx.onElapse; rewrite Hst; reflexivity).
  destruct (N.leb_spec remaining a) as [Ha|Ha].
  - destruct (N.leb_spec remaining (a + b)) as [_|Hab]; [| lia].
    eapply Rx_onElapse_idle. rewrite Rx_emit_stage. reflexivity.
  - unfold Rx.onElapse. cbn.
    destruct (N.leb_spec (remaining - a) b) as [Hb|Hb];
      destruct (N.leb_spec remaining (a + b)) as [Hab|Hab]; try lia.
    + apply Rx_emit_set_stage.
    + rewrite Rx_set_stage_twice. do 4 f_equal. lia.
Qed.

(** X7. Time is additive in every implementation: letting [a] ms pass and
    then [b] ms leaves a component in the same state as letting [a + b] ms
    pass at once, so the debounce timer depends on the time elapsed since
    the last notification only and not on how the wait was split. *)
Theorem elapse_is_additive (id : option string) :
  Forall (fun impl => forall (a b : N) w,
            handle impl (Elapse b) (handle impl (Elapse a) w)
            = handle impl (Elapse (a + b)) w)
         (implementations id).
Proof.
  each_implementation; intros a b w; try reflexivity; apply Rx_elapse_add.
Qed.

(** ** Notifications that are not coalesced *)

Lemma paced_writes_cons ctx last r rs :
  paced_writes ctx last (r :: rs) =
  emitted_writes ctx last r
    ++ paced_writes ctx (if suppressed last r then last else Some r) rs.
Proof.
  unfold paced_writes, emitted_writes. cbn.
  destruct (suppressed last r), (Rx.ctx_iframe ctx); reflexivity.
Qed.

Lemma Rx_paced_writes ngAfterViewInit init b :
  forall ctx pending last (w : Rx.W),
  Rx.stage (self w) = Rx.Observing ctx pending last ->
  Forall (fun x => Rx.dueTime <= snd x) b ->
  writes (io (run (Rx_component ngAfterViewInit init) (burst b) w))
    = writes (io w) ++ paced_writes ctx last (map fst b).
Proof.
  induction b as [|[r g] b IH]; intros ctx pending last w Hst Hb.
  - unfold paced_writes. cbn. destruct (Rx.ctx_iframe ctx); cbn;
      rewrite app_nil_r; reflexivity.
  - inversion Hb as [|x l Hg Hb']; subst. cbn in Hg.
    change (burst ((r, g) :: b)) with ([ResizeNotify [r]; Elapse g] ++ burst b).
    rewrite run_app,
      (Rx_notify_due ngAfterViewInit init ctx pending last r g w Hst Hg).
    rewrite (IH ctx None (if suppressed last r then last else Some r));
      [| apply Rx_emit_stage | assumption].
    rewrite Rx_emit_writes, <- app_assoc. f_equal.
    symmetry. apply paced_writes_cons.
Qed.

(** X8. In the RxJS components, notifications that are each followed by at
    least the debounce time are applied one by one, except those whose width
    and height equal the size applied just before: the writes are what
    [distinctUntilChanged] lets through, all to the located iframe, and none
    when no iframe was located.  A size that returns after a different one is
    written again. *)
Theorem paced_notifications_are_distinct ngAfterViewInit init (w : Rx.W)
    ctx pending last (b : list (Rect * N)) :
  let impl := Rx_component ngAfterViewInit init in
  Rx.stage (self w) = Rx.Observing ctx pending last ->
  Forall (fun x => Rx.dueTime <= snd x) b ->
  new_writes impl (burst b) w = paced_writes ctx last (map fst b).
Proof.
  intros impl Hst Hb. apply (new_writes_app ngAfterViewInit init).
  apply Rx_paced_writes with (pending := pending); assumption.
Qed.

Lemma paced_notifications_are_distinct_witness :
  new_writes RxjsPage
    (burst [(rect 800 600, 100); (rect 1024 768, 150); (rect 1024 768, 100);
            (rect 800 600, 300)])
    Rx_painted
  = [(0%nat, rect 1024 768); (0%nat, rect 800 600)].
Proof.
  apply (paced_notifications_are_distinct RxjsDashboardComponent.ngAfterViewInit
           RxjsDashboardComponent.initial Rx_painted
           Rx_painted_ctx None (Some (rect 800 600))
           [(rect 800 600, 100); (rect 1024 768, 150); (rect 1024 768, 100);
            (rect 800 600, 300)]).
  - exact Rx_painted_stage.
  - repeat constructor; vm_compute; discriminate.
Defined.

(** ** Notifications between two renders *)

Lemma Sig_notify_each initDashboard logsToken init rs r (w : Sig.W) :
  Sig.resizeObserver (self w) = true ->
  run (Sig_component initDashboard logsToken init) (notify_each (rs ++ [r])) w
    = Sig.set_iframeSize r w.
Proof.
  revert w. induction rs as [|r0 rs IH]; intros w Hro.
  - cbn. unfold Sig.onResize. rewrite Hro. destruct r. reflexivity.
  - change (notify_each ((r0 :: rs) ++ [r]))
      with (ResizeNotify [r0] :: notify_each (rs ++ [r])).
    rewrite run_cons. cbn [handle Sig_component Sig.handle].
    unfold Sig.onResize at 1. rewrite Hro. rewrite IH; [| exact Hro].
    reflexivity.
Qed.

(** X9. In the signals components the observer callback writes nothing to
    the document: of the notifications that arrive between two renders only
    the last one is applied, by the next render, with one write to the
    located iframe; a further render without a new notification writes
    nothing. *)
Theorem signals_apply_latest_size_per_render initDashboard logsToken init
    (w : Sig.W) (i : nat) (rs : list Rect) (r : Rect) :
  let impl := Sig_component initDashboard logsToken init in
  let evs := notify_each (rs ++ [r]) in
  Sig.resizeObserver (self w) = true ->
  Sig.destroyed (self w) = false ->
  Sig.renderPending (self w) = false ->
  Sig.iframeEl (self w) = Some i ->
  new_writes impl evs w = [] /\
  new_writes impl (evs ++ [Render]) w = [(i, r)] /\
  new_writes impl (evs ++ [Render; Render]) w = [(i, r)] /\
  currentStep (signals (run impl (evs ++ [Render]) w)) = done.
Proof.
  intros impl evs Hro Hd Hrp Hel. subst impl evs.
  unfold new_writes. rewrite !run_app, Sig_notify_each by exact Hro.
  destruct w as [sg dm [rq em fl wr] [id sz dirty el ro a rp dd]].
  cbn in Hro, Hd, Hrp, Hel. subst. cbn.
  unfold Sig.render, Sig.afterNextRender_hook, Sig.afterRenderEffect_hook. cbn.
  rewrite drop_all, drop_app_length. repeat split.
Qed.

Lemma signals_apply_latest_size_per_render_witness :
  let w := run LifecyclePage (embedded "tok123" [iframeElement])
               (boot LifecyclePage) in
  new_writes LifecyclePage
    (notify_each ([rect 800 600; rect 801 600] ++ [rect 802 600]) ++ [Render]) w
  = [(0%nat, rect 802 600)].
Proof.
  cbv zeta.
  apply (signals_apply_latest_size_per_render
           LifecycleDashboardComponent.initDashboard true
           LifecycleDashboardComponent.initial
           (run LifecyclePage (embedded "tok123" [iframeElement]) (boot LifecyclePage))
           0%nat [rect 800 600; rect 801 600] (rect 802 600));
    reflexivity.
Defined.

(** ** The reusable component and the page *)

Lemma Rx_handle_keeps_id ngAfterViewInit e (w : Rx.W) :
  (forall v, Rx.dashboardId (self (ngAfterViewInit v)) = Rx.dashboardId (self v)) ->
  Rx.dashboardId (self (Rx.handle ngAfterViewInit e w)) = Rx.dashboardId (self w).
Proof.
  intros Hav. destruct e; try reflexivity; try apply Hav; cbn.
  - unfold Rx.onToken. destruct (Rx.stage (self w)); try reflexivity.
    destruct (SupersetService.getGuestToken r); reflexivity.
  - destruct (embedInFlight (io w)); [| reflexivity].
    unfold Rx.onEmbedResolved. cbn. destruct (Rx.stage (self w)); reflexivity.
  - destruct (embedInFlight (io w)); [| reflexivity].
    unfold Rx.onEmbedRejected. cbn. destruct (Rx.stage (self w)); reflexivity.
  - unfold Rx.onResize. destruct (Rx.stage (self w)); reflexivity.
  - unfold Rx.onElapse.
    destruct (Rx.stage (self w)) as [| | | ctx [[r remaining]|] lst |];
      try reflexivity.
    destruct (_ <=? _); [| reflexivity].
    unfold Rx.emit, Rx.apply_size.
    destruct lst as [prev|]; [destruct (Rx.same_size prev r) |];
      destruct (Rx.ctx_iframe ctx); reflexivity.
  - unfold Rx.ngOnDestroy, Rx.destroy_signal.
    destruct (Rx.destroyStopped (self w)); reflexivity.
Qed.

Lemma Rx_dashboard_handles_like_page e (w : Rx.W) :
  Rx.dashboardId (self w) = Some RxjsDashboardComponent.dashboardId ->
  DashboardComponentRx.handle e w = RxjsDashboardComponent.handle e w.
Proof.
  intros Hid. destruct e; try reflexivity.
  unfold DashboardComponentRx.handle, RxjsDashboardComponent.handle, Rx.handle,
    DashboardComponentRx.ngAfterViewInit, RxjsDashboardComponent.ngAfterViewInit.
  rewrite Hid. reflexivity.
Qed.

(** X10. The RxJS [DashboardComponent] bound to the identifier of the root
    component behaves exactly like [RxjsDashboardComponent]: on every
    sequence of events the two are in the same state, with the same signals,
    the same requests, embed calls and writes. *)
Theorem dashboard_component_is_the_rxjs_page (evs : list Event) :
  App.dashboardId = RxjsDashboardComponent.dashboardId /\
  run (DashboardRx (Some App.dashboardId)) evs
      (boot (DashboardRx (Some App.dashboardId)))
  = run RxjsPage evs (boot RxjsPage).
Proof.
  split; [reflexivity |].
  change (boot (DashboardRx (Some App.dashboardId))) with (boot RxjsPage).
  assert (H : forall w : Rx.W,
             Rx.dashboardId (self w) = Some RxjsDashboardComponent.dashboardId ->
             run (DashboardRx (Some App.dashboardId)) evs w = run RxjsPage evs w).
  { induction evs as [|e evs IH]; intros w Hid; [reflexivity |].
    rewrite !run_cons.
    change (handle (DashboardRx (Some App.dashboardId)) e w)
      with (DashboardComponentRx.handle e w).
    rewrite (Rx_dashboard_handles_like_page e w Hid).
    apply IH.
    change (handle RxjsPage e w)
      with (Rx.handle RxjsDashboardComponent.ngAfterViewInit e w) in *.
    unfold RxjsDashboardComponent.handle.
    rewrite Rx_handle_keeps_id; [exact Hid | reflexivity]. }
  apply H. reflexivity.
Qed.

(** ** The identifier taken from the route *)



(** ** Where a URL lands *)




Ltac page_case url p :=
  destruct (decide (url = [p])) as [-> | ?]; [reflexivity |].




(** ** Only iframes are resized *)

Lemma tags_kept_refl d : tags_kept d d.
Proof. intros i H. exact H. Qed.

Lemma tags_kept_trans d1 d2 d3 :
  tags_kept d1 d2 -> tags_kept d2 d3 -> tags_kept d1 d3.
Proof. unfold tags_kept. auto. Qed.

Lemma tags_kept_heap d d' : heap d' = heap d -> tags_kept d d'.
Proof. intros H i. unfold is_iframe. rewrite H. auto. Qed.

Lemma tags_kept_app d d' els : heap d' = heap d ++ els -> tags_kept d d'.
Proof.
  intros H i. unfold is_iframe. rewrite H.
  destruct (heap d !! i) as [e|] eqn:He; [| discriminate].
  rewrite (lookup_app_l_Some _ _ _ _ He). auto.
Qed.

Lemma tags_kept_write_size {P} j r (w : World P) :
  tags_kept (document w) (document (write_size j r w)).
Proof.
  intros i. unfold is_iframe, write_size. cbn.
  destruct (heap (document w) !! j) as [e|] eqn:Hj; [| auto].
  destruct (decide (j = i)) as [-> | Hne].
  - rewrite Hj, list_lookup_insert_eq by (eapply lookup_lt_Some; eassumption).
    auto.
  - rewrite list_lookup_insert_ne by exact Hne. auto.
Qed.

Lemma writes_appended_none {P} cached (w w' : World P) :
  tags_kept (document w) (document w') -> writes (io w') = writes (io w) ->
  writes_appended cached w w'.
Proof.
  intros Ht Hw. split; [exact Ht |]. exists []. rewrite app_nil_r.
  split; [exact Hw | intros i r []].
Qed.

Lemma Rx_emit_appended ctx pending last r (w : Rx.W) :
  Rx.stage (self w) = Rx.Observing ctx pending last ->
  writes_appended Rx_cached w (Rx.emit ctx last r w).
Proof.
  intros Hst. split.
  - unfold Rx.emit, Rx.apply_size.
    destruct last as [prev|]; [destruct (Rx.same_size prev r) |];
      destruct (Rx.ctx_iframe ctx); cbn;
      first [apply tags_kept_refl | apply (tags_kept_write_size _ _ w)].
  - exists (emitted_writes ctx last r). split; [apply Rx_emit_writes |].
    unfold Rx_cached, emitted_writes. rewrite Hst. intros i r'.
    destruct (suppressed last r); [intros [] |].
    destruct (Rx.ctx_iframe ctx); [| intros []].
    intros [[= <- <-] | []]. reflexivity.
Qed.

Lemma Rx_step_appended ngAfterViewInit e (w : Rx.W) :
  init_hook e = false ->
  writes_appended Rx_cached w (Rx.handle ngAfterViewInit e w).
Proof.
  intros He. destruct e; try discriminate; cbn.
  - apply writes_appended_none; [apply tags_kept_refl | reflexivity].
  - unfold Rx.onToken. destruct (Rx.stage (self w));
      try (apply writes_appended_none; [apply tags_kept_refl | reflexivity]).
    destruct (SupersetService.getGuestToken r);
      apply writes_appended_none; try apply tags_kept_refl; reflexivity.
  - destruct (embedInFlight (io w));
      [| apply writes_appended_none; [apply tags_kept_refl | reflexivity]].
    unfold Rx.onEmbedResolved. cbn.
    destruct (Rx.stage (self w)); apply writes_appended_none;
      try reflexivity; eapply tags_kept_app; reflexivity.
  - destruct (embedInFlight (io w));
      [| apply writes_appended_none; [apply tags_kept_refl | reflexivity]].
    unfold Rx.onEmbedRejected. cbn.
    destruct (Rx.stage (self w)); apply writes_appended_none;
      try reflexivity; apply tags_kept_refl.
  - apply writes_appended_none; [eapply tags_kept_app | ]; reflexivity.
  - unfold Rx.onResize. destruct (Rx.stage (self w));
      apply writes_appended_none; try reflexivity; apply tags_kept_refl.
  - unfold Rx.onElapse.
    destruct (Rx.stage (self w)) as [| | | ctx [[r remaining]|] lst |] eqn:Hst;
      try (apply writes_appended_none; [apply tags_kept_refl | reflexivity]).
    destruct (_ <=? _);
      [| apply writes_appended_none; [apply tags_kept_refl | reflexivity]].
    eapply Rx_emit_appended. exact Hst.
  - unfold Rx.ngOnDestroy, Rx.destroy_signal.
    destruct (Rx.destroyStopped (self w)); apply writes_appended_none;
      try reflexivity; apply tags_kept_heap; reflexivity.
Qed.

Section OnlyIframes.
Variable impl : Implementation.
Variable cached : World (priv impl) -> option nat.
Hypothesis step_appended : forall e w,
  init_hook e = false -> writes_appended cached w (handle impl e w).
Hypothesis cached_step : forall e w i,
  init_hook e = false -> cached (handle impl e w) = Some i ->
  cached w = Some i \/ is_iframe (document (handle impl e w)) i = true.

Lemma only_iframes_step e w :
  init_hook e = false ->
  only_iframes cached w -> only_iframes cached (handle impl e w).
Proof.
  intros He (Hk & Hw).
  destruct (step_appended e w He) as (Ht & l & Hl & Hin).
  split.
  - intros i Hi. destruct (cached_step e w i He Hi) as [Hc | Hd]; auto.
  - intros i r. rewrite Hl. intros Hi.
    apply in_app_or in Hi as [Hi | Hi]; eauto.
Qed.

Lemma only_iframes_run tail :
  only_iframes cached (run impl activate (boot impl)) ->
  Forall (fun e => init_hook e = false) tail ->
  only_iframes cached (run impl (activate ++ tail) (boot impl)).
Proof.
  intros Hact Htail. rewrite run_app.
  apply (run_invariant_tail impl (only_iframes cached)); auto.
  intros e w He. apply only_iframes_step, He.
Qed.
End OnlyIframes.

Lemma Rx_cached_step ngAfterViewInit (init : Rx.State) e (w : Rx.W) i :
  init_hook e = false ->
  Rx_cached (Rx.handle ngAfterViewInit e w) = Some i ->
  Rx_cached w = Some i \/
  is_iframe (document (Rx.handle ngAfterViewInit e w)) i = true.
Proof.
  intros He Hc.
  destruct (Rx_writes_to_cached_handle ngAfterViewInit init w e He) as (_ & Hkeep).
  destruct e; try (left; apply Hkeep; [exact Hc | discriminate]).
  clear Hkeep. revert Hc. cbn.
  destruct (embedInFlight (io w)); [| auto].
  unfold Rx.onEmbedResolved, Rx_cached.
  change (Rx.stage (self (Rx.sdk_resolves inserted w))) with (Rx.stage (self w)).
  destruct (Rx.stage (self w)) eqn:Hst; cbn; rewrite ?Hst; auto.
  intros Hq. right. apply List.find_some in Hq. apply Hq.
Qed.

Lemma Sig_render_tags initDashboard (w : Sig.W) :
  (forall v, document (initDashboard v) = document v) ->
  tags_kept (document w) (document (Sig.render initDashboard w)).
Proof.
  intros Hinit. unfold Sig.render.
  destruct (Sig.destroyed (self w)); [apply tags_kept_refl |].
  set (w1 := Sig.afterNextRender_hook initDashboard w).
  assert (H1 : document w1 = document w).
  { subst w1. unfold Sig.afterNextRender_hook.
    destruct (Sig.renderPending (self w)); [| reflexivity].
    rewrite Hinit. reflexivity. }
  rewrite <- H1. unfold Sig.afterRenderEffect_hook, Sig.effect.
  destruct (Sig.effectDirty (self w1)); [| apply tags_kept_refl].
  destruct (Sig.iframeEl (self w1)); [destruct (Sig.iframeSize (self w1)) |];
    cbn; first [apply tags_kept_refl | apply (tags_kept_write_size _ _ w1)].
Qed.

Lemma Sig_step_appended initDashboard logsToken e (w : Sig.W) :
  Sig_init_frame initDashboard ->
  init_hook e = false ->
  writes_appended Sig_cached w (Sig.handle initDashboard logsToken e w).
Proof.
  intros Hinit He. destruct e; try discriminate; cbn.
  - split; [apply Sig_render_tags; intros v; apply Hinit |].
    destruct (Sig_render_writes initDashboard w) as (_ & l & Hl & Hin);
      [intros v; destruct (Hinit v) as (H1 & H2 & _); auto |].
    exists l. auto.
  - unfold Sig.afterToken. destruct (Sig.async (self w));
      try (apply writes_appended_none; [apply tags_kept_refl | reflexivity]).
    destruct (SupersetService.getGuestToken r);
      [apply writes_appended_none; [apply tags_kept_refl | reflexivity] |].
    destruct (logsToken && _);
      apply writes_appended_none; try apply tags_kept_refl; reflexivity.
  - destruct (embedInFlight (io w));
      [| apply writes_appended_none; [apply tags_kept_refl | reflexivity]].
    unfold Sig.afterEmbed. cbn.
    destruct (Sig.async (self w)); apply writes_appended_none;
      try reflexivity; eapply tags_kept_app; reflexivity.
  - destruct (embedInFlight (io w));
      [| apply writes_appended_none; [apply tags_kept_refl | reflexivity]].
    unfold Sig.embedThrows. cbn.
    destruct (Sig.async (self w)); apply writes_appended_none;
      try reflexivity; apply tags_kept_refl.
  - apply writes_appended_none; [eapply tags_kept_app | ]; reflexivity.
  - unfold Sig.onResize. destruct (Sig.resizeObserver (self w));
      [destruct entries |];
      apply writes_appended_none; try reflexivity; apply tags_kept_refl.
  - apply writes_appended_none; [apply tags_kept_refl | reflexivity].
  - apply writes_appended_none; [apply tags_kept_heap |]; reflexivity.
Qed.

Lemma Sig_cached_step initDashboard logsToken e (w : Sig.W) i :
  Sig_init_frame initDashboard ->
  init_hook e = false ->
  Sig_cached (Sig.handle initDashboard logsToken e w) = Some i ->
  Sig_cached w = Some i \/
  is_iframe (document (Sig.handle initDashboard logsToken e w)) i = true.
Proof.
  intros Hinit He. unfold Sig_cached. destruct e; try discriminate; cbn.
  - destruct (Sig_render_writes initDashboard w) as (Hel & _);
      [intros v; destruct (Hinit v) as (H1 & H2 & _); auto |].
    rewrite Hel. auto.
  - unfold Sig.afterToken. destruct (Sig.async (self w)); auto.
    destruct (SupersetService.getGuestToken r); auto.
    destruct (logsToken && _); auto.
  - destruct (embedInFlight (io w)); [| auto].
    unfold Sig.afterEmbed.
    change (Sig.async (self (Sig.sdk_resolves inserted w)))
      with (Sig.async (self w)).
    destruct (Sig.async (self w)); cbn; auto.
    intros Hq. right. apply List.find_some in Hq. apply Hq.
  - destruct (embedInFlight (io w)); [| auto].
    unfold Sig.embedThrows. cbn. destruct (Sig.async (self w)); auto.
  - auto.
  - unfold Sig.onResize. destruct (Sig.resizeObserver (self w));
      [destruct entries |]; auto.
  - auto.
  - auto.
Qed.

Lemma Sig_page_init_frame : Sig_init_frame LifecycleDashboardComponent.initDashboard.
Proof. intros v. repeat split. Qed.

Lemma Sig_dashboard_init_frame :
  Sig_init_frame DashboardComponentSignals.initDashboard.
Proof.
  intros v. unfold DashboardComponentSignals.initDashboard.
  destruct (falsy _); repeat split.
Qed.

Lemma only_iframes_resized {P} cached (w : World P) :
  only_iframes cached w -> resized_iframes_only w.
Proof.
  intros (_ & Hw) i r Hi. specialize (Hw i r Hi). unfold is_iframe in Hw.
  destruct (heap (document w) !! i) as [e|]; [| discriminate].
  exists e. split; [reflexivity |]. apply bool_decide_eq_true_1 in Hw. exact Hw.
Qed.

Lemma no_writes_resized {P} (w : World P) :
  writes (io w) = [] -> resized_iframes_only w.
Proof. intros H i r. rewrite H. intros []. Qed.

Lemma only_iframes_fresh {P} cached (w : World P) :
  cached w = None -> writes (io w) = [] -> only_iframes cached w.
Proof.
  intros Hc Hw. split.
  - intros i. rewrite Hc. discriminate.
  - intros i r. rewrite Hw. intros [].
Qed.

(** X13. In every implementation, whatever happens after activation, every
    width/height write went to an element whose tag is iframe: the handle
    comes from [querySelector('iframe')] only, and neither the SDK inserting
    or replacing elements nor a resize changes the tag of the element it
    points to. *)
Theorem only_iframes_are_resized (id : option string) (tail : list Event) :
  Forall (fun e => init_hook e = false) tail ->
  Forall (fun impl => resized_iframes_only (run impl (activate ++ tail) (boot impl)))
         (implementations id).
Proof.
  intros Htail. each_implementation.
  - apply (only_iframes_resized Rx_cached).
    apply (only_iframes_run RxjsPage Rx_cached); auto.
    + intros; apply Rx_step_appended; assumption.
    + intros e w i. apply (Rx_cached_step _ RxjsDashboardComponent.initial).
    + apply only_iframes_fresh; reflexivity.
  - apply (only_iframes_resized Rx_cached).
    apply (only_iframes_run (DashboardRx id) Rx_cached); auto.
    + intros; apply Rx_step_appended; assumption.
    + intros e w i. apply (Rx_cached_step _ (DashboardComponentRx.initial id)).
    + cbn. unfold DashboardComponentRx.ngAfterViewInit. cbn.
      destruct (falsy id); apply only_iframes_fresh; reflexivity.
  - apply (only_iframes_resized Sig_cached).
    apply (only_iframes_run LifecyclePage Sig_cached); auto.
    + intros; apply Sig_step_appended; auto using Sig_page_init_frame.
    + intros e w i. apply Sig_cached_step, Sig_page_init_frame.
    + apply only_iframes_fresh; reflexivity.
  - apply (only_iframes_resized Sig_cached).
    apply (only_iframes_run (DashboardSignals id) Sig_cached); auto.
    + intros; apply Sig_step_appended; auto using Sig_dashboard_init_frame.
    + intros e w i. apply Sig_cached_step, Sig_dashboard_init_frame.
    + cbn. unfold Sig.render, Sig.afterNextRender_hook. cbn.
      unfold DashboardComponentSignals.initDashboard. cbn.
      destruct (falsy id); apply only_iframes_fresh; reflexivity.
  - apply no_writes_resized.
    apply (reachable_inv CssPage Css_inv Css_inv_activated Css_inv_step tail Htail).
  - apply no_writes_resized.
    apply (reachable_inv AfterNextRenderPage Anr_inv Anr_inv_activated
             Anr_inv_step tail Htail).
Qed.

Lemma only_iframes_are_resized_witness :
  Forall (fun impl =>
            resized_iframes_only
              (run impl (activate ++
                         [TokenResponse (HttpBody (Some "tok123"));
                          EmbedResolved
                            [{| tagName := "div"; styleWidth := ""; styleHeight := "" |};
                             iframeElement];
                          ResizeNotify [rect 800 600]; Elapse 100; Render;
                          SdkReplace iframeElement;
                          ResizeNotify [rect 640 480]; Elapse 100; Render])
                   (boot impl)))
         (implementations (Some "abbb00fa-f7c9-4162-9c88-4a1ab1af1998")).
Proof.
  apply (only_iframes_are_resized (Some "abbb00fa-f7c9-4162-9c88-4a1ab1af1998")).
  repeat constructor.
Defined.

(** ** The token hand-over of [AfterNextRenderDashboardComponent] *)

Lemma Anr_token_lost_step e (w : Anr.W) :
  init_hook e = false -> Anr_token_lost w -> Anr_token_lost (Anr.handle e w).
Proof.
  unfold Anr_token_lost.
  intros He (Hsub & Hpipe & Hfl & Hemb & Hreq & Hwr & Hstep & Hload & Herr).
  destruct e; try discriminate He; cbn.
  - unfold Anr.render.
    destruct (Anr.pipe (self w)) eqn:Hp; try (cbn; rewrite ?Hp; tauto).
    destruct (Anr.destroyStopped (self w)); cbn; rewrite ?Hp;
      repeat split; try assumption; discriminate.
  - unfold Anr.onToken. rewrite Hsub. tauto.
  - rewrite Hfl. tauto.
  - rewrite Hfl. tauto.
  - tauto.
  - tauto.
  - tauto.
  - unfold Anr.ngOnDestroy.
    destruct (Anr.destroyStopped (self w)); cbn; [tauto |].
    repeat split; try assumption.
    destruct (Anr.pipe (self w)); discriminate.
Qed.

(** X14. In [AfterNextRenderDashboardComponent] the token is requested in
    [ngOnInit] and handed over through the plain subject [guestToken$],
    which the [afterNextRender] callback subscribes to.  A successful token
    response that is delivered before the first render finds no subscriber
    and is dropped: whatever happens afterwards, [embedDashboard] is never
    called, no second request is made, and the component keeps showing the
    token step with the loading indicator and no error. *)
Theorem early_token_is_dropped (tok : option string) (tail : list Event) :
  Forall (fun e => init_hook e = false) tail ->
  let w := run AfterNextRenderPage
             ([NgOnInit; NgAfterViewInit; TokenResponse (HttpBody tok)] ++ tail)
             (boot AfterNextRenderPage) in
  embeds (io w) = [] /\
  requests (io w) = [SupersetService.url Anr.dashboardId] /\
  lifecycle w = at_step token /\
  isLoading (signals w) = true.
Proof.
  intros Htail w.
  assert (H : Anr_token_lost w).
  { subst w. rewrite run_app.
    apply (run_invariant_tail AfterNextRenderPage Anr_token_lost);
      [exact Anr_token_lost_step | exact Htail |].
    unfold Anr_token_lost. cbn. repeat split; discriminate. }
  clearbody w.
  destruct H as (_ & _ & _ & Hemb & Hreq & _ & Hstep & Hload & Herr).
  repeat split; try assumption.
  unfold lifecycle. cbn in *. rewrite Herr, Hstep. reflexivity.
Qed.

Lemma early_token_is_dropped_witness :
  let w := run AfterNextRenderPage
             ([NgOnInit; NgAfterViewInit; TokenResponse (HttpBody (Some "tok123"))]
              ++ [Render; TokenResponse (HttpBody (Some "tok123"));
                  EmbedResolved [iframeElement]; Render; Elapse 100])
             (boot AfterNextRenderPage) in
  embeds (io w) = [] /\
  requests (io w) = [SupersetService.url Anr.dashboardId] /\
  lifecycle w = at_step token /\
  isLoading (signals w) = true.
Proof.
  apply (early_token_is_dropped (Some "tok123")). repeat constructor.
Defined.
